(** * alx_travel_app: booking, payment and notification workflow

    A shallow embedding of [listings/views.py] and [listings/tasks.py].
    The views are load-modify-save programs over the ORM tables, the
    Celery broker and the payment gateway; they are written here in a
    small state-and-exception monad over a [World] that holds the
    tables, the broker queue, the gateway call log and the oracles the
    code reads (the clock, the uuid generator, the gateway's answers).

    [views.py] holds two generations of the views one after the other;
    the later definitions (from line 251 on) are the ones the module
    ends up with and the ones embedded here.

    The persistence engine is taken to work: [save] and [create] write
    what the view hands them and do not raise; [delete] follows the
    [on_delete] of the foreign key that points at the deleted rows.  The
    exceptions that the tables' contents decide ([DoesNotExist],
    [MultipleObjectsReturned], 404 from [get_object], [ProtectedError])
    and the ones the gateway's answer decides ([KeyError]) are
    modelled. *)

From Stdlib Require Import ZArith NArith String Ascii Bool Lia.
From stdpp Require Import gmap strings list fin_maps pretty sorting.

Local Open Scope Z_scope.

(** ** Values *)

(** [datetime] values are microseconds since the epoch, [date] values are
    day ordinals, [Decimal] prices are counted in hundredths. *)
Abbreviation Time := Z (only parsing).
Abbreviation Date := Z (only parsing).
Abbreviation Decimal := Z (only parsing).

Definition one_day : Z := 86400 * 1000000.

(** [timedelta(days=n)] *)
Definition timedelta_days (n : Z) : Z := n * one_day.

(** The values a [booking_data] or JSON dict holds.  [VStrftime t] is
    [t.strftime('%Y-%m-%d %H:%M:%S')]. *)
Inductive Val : Type :=
  | VNone
  | VInt (z : Z)
  | VStr (s : string)
  | VDate (d : Date)
  | VDecimal (d : Decimal)
  | VDatetime (t : Time)
  | VStrftime (t : Time).

Abbreviation dict := (list (string * Val)).

(** [d.get(k, default)] *)
Fixpoint dict_get (d : dict) (k : string) (default : Val) : Val :=
  match d with
  | [] => default
  | (k', v) :: rest => if String.eqb k' k then v else dict_get rest k default
  end.

(** Python truthiness of an optional string: [None] and [''] are falsy. *)
Definition truthy_str (s : option string) : bool :=
  match s with
  | None => false
  | Some s => negb (String.eqb s "")
  end.

(** ** Model instances

    Related objects reached through a foreign key ([booking.guest],
    [booking.listing], [listing.host]) are held as the object the code
    dereferences; model instances compare by primary key. *)

Record User : Type := {
  user_id : Z;
  email : string;
  is_staff : bool
}.

(** [a == b] on users *)
Definition user_eqb (a b : User) : bool := user_id a =? user_id b.

Record Listing : Type := {
  listing_id : Z;
  host : User;
  title : string;
  listing_status : string;
  city : string;
  country : string;
  max_guests : Z;
  property_type : string;
  base_price : Decimal;
  amenities : list string
}.

(** A [Booking] row; its primary key is its key in the table. *)
Record Booking : Type := {
  listing : Listing;
  guest : User;
  check_in : Date;
  check_out : Date;
  guests : Z;
  total_price : Decimal;
  status : string;
  confirmation_number : option string;
  payment_status : option string;
  created_at : Time;
  updated_at : Time;
  confirmed_at : option Time;
  cancelled_at : option Time;
  paid_at : option Time
}.

(** The gateway's answer; [data_status] is [response["data"]["status"]],
    [None] when the key is missing. *)
Record ChapaResponse : Type := {
  data_status : option string
}.

(** A [Payment] row; [p_booking] is the nullable foreign key. *)
Record Payment : Type := {
  p_booking : option Z;
  p_amount : Decimal;
  p_email : string;
  p_reference : string;
  p_transaction_id : option string;
  p_status : string;
  p_chapa_verification_response : option ChapaResponse;
  p_paid_at : option Time
}.

(** *** Attribute assignment *)

Definition set_status (v : string) (b : Booking) : Booking :=
  {| listing := listing b; guest := guest b; check_in := check_in b;
     check_out := check_out b; guests := guests b; total_price := total_price b;
     status := v; confirmation_number := confirmation_number b;
     payment_status := payment_status b; created_at := created_at b;
     updated_at := updated_at b; confirmed_at := confirmed_at b;
     cancelled_at := cancelled_at b; paid_at := paid_at b |}.

Definition set_confirmation_number (v : option string) (b : Booking) : Booking :=
  {| listing := listing b; guest := guest b; check_in := check_in b;
     check_out := check_out b; guests := guests b; total_price := total_price b;
     status := status b; confirmation_number := v;
     payment_status := payment_status b; created_at := created_at b;
     updated_at := updated_at b; confirmed_at := confirmed_at b;
     cancelled_at := cancelled_at b; paid_at := paid_at b |}.

Definition set_payment_status (v : option string) (b : Booking) : Booking :=
  {| listing := listing b; guest := guest b; check_in := check_in b;
     check_out := check_out b; guests := guests b; total_price := total_price b;
     status := status b; confirmation_number := confirmation_number b;
     payment_status := v; created_at := created_at b;
     updated_at := updated_at b; confirmed_at := confirmed_at b;
     cancelled_at := cancelled_at b; paid_at := paid_at b |}.

Definition set_confirmed_at (v : option Time) (b : Booking) : Booking :=
  {| listing := listing b; guest := guest b; check_in := check_in b;
     check_out := check_out b; guests := guests b; total_price := total_price b;
     status := status b; confirmation_number := confirmation_number b;
     payment_status := payment_status b; created_at := created_at b;
     updated_at := updated_at b; confirmed_at := v;
     cancelled_at := cancelled_at b; paid_at := paid_at b |}.

Definition set_cancelled_at (v : option Time) (b : Booking) : Booking :=
  {| listing := listing b; guest := guest b; check_in := check_in b;
     check_out := check_out b; guests := guests b; total_price := total_price b;
     status := status b; confirmation_number := confirmation_number b;
     payment_status := payment_status b; created_at := created_at b;
     updated_at := updated_at b; confirmed_at := confirmed_at b;
     cancelled_at := v; paid_at := paid_at b |}.

Definition set_paid_at (v : option Time) (b : Booking) : Booking :=
  {| listing := listing b; guest := guest b; check_in := check_in b;
     check_out := check_out b; guests := guests b; total_price := total_price b;
     status := status b; confirmation_number := confirmation_number b;
     payment_status := payment_status b; created_at := created_at b;
     updated_at := updated_at b; confirmed_at := confirmed_at b;
     cancelled_at := cancelled_at b; paid_at := v |}.

Definition set_p_status (v : string) (p : Payment) : Payment :=
  {| p_booking := p_booking p; p_amount := p_amount p; p_email := p_email p;
     p_reference := p_reference p; p_transaction_id := p_transaction_id p;
     p_status := v;
     p_chapa_verification_response := p_chapa_verification_response p;
     p_paid_at := p_paid_at p |}.

Definition set_p_booking (v : option Z) (p : Payment) : Payment :=
  {| p_booking := v; p_amount := p_amount p; p_email := p_email p;
     p_reference := p_reference p; p_transaction_id := p_transaction_id p;
     p_status := p_status p;
     p_chapa_verification_response := p_chapa_verification_response p;
     p_paid_at := p_paid_at p |}.

Definition set_p_paid_at (v : option Time) (p : Payment) : Payment :=
  {| p_booking := p_booking p; p_amount := p_amount p; p_email := p_email p;
     p_reference := p_reference p; p_transaction_id := p_transaction_id p;
     p_status := p_status p;
     p_chapa_verification_response := p_chapa_verification_response p;
     p_paid_at := v |}.

Definition set_p_chapa_verification_response (v : option ChapaResponse)
    (p : Payment) : Payment :=
  {| p_booking := p_booking p; p_amount := p_amount p; p_email := p_email p;
     p_reference := p_reference p; p_transaction_id := p_transaction_id p;
     p_status := p_status p;
     p_chapa_verification_response := v;
     p_paid_at := p_paid_at p |}.

(** ** The world the views run in *)

(** A job put on the broker by [task.delay(booking_data=..., user_email=...)]. *)
Record Job : Type := {
  task : string;
  booking_data : dict;
  user_email : string
}.

(** What the code reads from outside: the [n]-th reading of
    [timezone.now()], the [n]-th [uuid.uuid4()] (a 128-bit integer) and
    the gateway's answer to a verify call. *)
Record Oracle : Type := {
  now_at : nat -> Time;
  uuid_at : nat -> N;
  chapa_verify : string -> ChapaResponse
}.

Record World : Type := {
  oracle : Oracle;
  ticks : nat;
  uuids_drawn : nat;
  bookings : gmap Z Booking;
  payments : gmap Z Payment;
  listings : list Listing;
  queue : list Job;
  gateway_calls : list string
}.

Definition set_ticks (v : nat) (w : World) : World :=
  {| oracle := oracle w; ticks := v; uuids_drawn := uuids_drawn w;
     bookings := bookings w; payments := payments w; listings := listings w;
     queue := queue w; gateway_calls := gateway_calls w |}.

Definition set_uuids_drawn (v : nat) (w : World) : World :=
  {| oracle := oracle w; ticks := ticks w; uuids_drawn := v;
     bookings := bookings w; payments := payments w; listings := listings w;
     queue := queue w; gateway_calls := gateway_calls w |}.

Definition set_bookings (v : gmap Z Booking) (w : World) : World :=
  {| oracle := oracle w; ticks := ticks w; uuids_drawn := uuids_drawn w;
     bookings := v; payments := payments w; listings := listings w;
     queue := queue w; gateway_calls := gateway_calls w |}.

Definition set_payments (v : gmap Z Payment) (w : World) : World :=
  {| oracle := oracle w; ticks := ticks w; uuids_drawn := uuids_drawn w;
     bookings := bookings w; payments := v; listings := listings w;
     queue := queue w; gateway_calls := gateway_calls w |}.

Definition set_queue (v : list Job) (w : World) : World :=
  {| oracle := oracle w; ticks := ticks w; uuids_drawn := uuids_drawn w;
     bookings := bookings w; payments := payments w; listings := listings w;
     queue := v; gateway_calls := gateway_calls w |}.

Definition set_gateway_calls (v : list string) (w : World) : World :=
  {| oracle := oracle w; ticks := ticks w; uuids_drawn := uuids_drawn w;
     bookings := bookings w; payments := payments w; listings := listings w;
     queue := queue w; gateway_calls := v |}.

(** ** The monad of views: state, and exceptions that keep the state
    reached when they are raised (the views run without a transaction). *)

Inductive Exn : Type :=
  | Http404
  | DoesNotExist
  | MultipleObjectsReturned
  | KeyError
  | ValidationError
  | ConflictError
  | ProtectedError.

(** [str(e)].  For [ProtectedError] this is its message, without the set
    of protecting rows that follows it; the text of a [ConflictError] is
    rendered nowhere in the code embedded here. *)
Definition exn_str (e : Exn) : string :=
  match e with
  | Http404 => "Not found."
  | DoesNotExist => "matching query does not exist."
  | MultipleObjectsReturned => "get() returned more than one row"
  | KeyError => "'status'"
  | ValidationError => "invalid date format"
  | ConflictError => "overlapping booking"
  | ProtectedError =>
      "Cannot delete some instances of model 'Booking' because they are referenced through protected foreign keys: 'Payment.booking'."
  end.

Definition M (A : Type) : Type := World -> World * (A + Exn).

#[global] Instance M_ret : MRet M := λ A a w, (w, inl a).

#[global] Instance M_bind : MBind M := λ A B f m w,
  match m w with
  | (w', inl a) => f a w'
  | (w', inr e) => (w', inr e)
  end.

Definition raise {A : Type} (e : Exn) : M A := λ w, (w, inr e).

(** [try: m except Exception as e: ...]: the outcome of [m] as a value. *)
Definition try {A : Type} (m : M A) : M (A + Exn) := λ w,
  match m w with
  | (w', r) => (w', inl r)
  end.

Definition get_world : M World := λ w, (w, inl w).
Definition modify (f : World -> World) : M unit := λ w, (f w, inl tt).

(** [timezone.now()] *)
Definition timezone_now : M Time := λ w,
  (set_ticks (S (ticks w)) w, inl (now_at (oracle w) (ticks w))).

(** [uuid.uuid4()] *)
Definition uuid4 : M N := λ w,
  (set_uuids_drawn (S (uuids_drawn w)) w, inl (uuid_at (oracle w) (uuids_drawn w))).

(** [verify_chapa_transaction(reference)]: one call to the gateway. *)
Definition verify_chapa_transaction (reference : string) : M ChapaResponse := λ w,
  (set_gateway_calls (gateway_calls w ++ [reference]) w,
   inl (chapa_verify (oracle w) reference)).

(** [task.delay(booking_data=..., user_email=...)] *)
Definition delay (name : string) (data : dict) (to : string) : M unit :=
  modify (λ w, set_queue
    (queue w ++ [{| task := name; booking_data := data; user_email := to |}]) w).

(** *** The ORM *)

(** [Model.objects.get(...)] on the rows that match. *)
Definition objects_get {A : Type} (matching : list (Z * A)) : M (Z * A) :=
  match matching with
  | [] => raise DoesNotExist
  | [row] => mret row
  | _ => raise MultipleObjectsReturned
  end.

(** [Payment.objects.get(reference=reference)] *)
Definition Payment_objects_get (reference : string) : M (Z * Payment) :=
  w ← get_world;
  objects_get
    (map_to_list (filter (λ kv, p_reference kv.2 = reference) (payments w))).

(** [payment.booking]: follows the foreign key. *)
Definition Payment_booking (payment : Payment) : M (option (Z * Booking)) :=
  match p_booking payment with
  | None => mret None
  | Some bid =>
      w ← get_world;
      match bookings w !! bid with
      | Some b => mret (Some (bid, b))
      | None => raise DoesNotExist
      end
  end.

(** [booking.save()] *)
Definition Booking_save (pk : Z) (b : Booking) : M unit :=
  modify (λ w, set_bookings (<[pk := b]> (bookings w)) w).

(** [payment.save()] *)
Definition Payment_save (pk : Z) (p : Payment) : M unit :=
  modify (λ w, set_payments (<[pk := p]> (payments w)) w).

(** ** Responses *)

Inductive Body : Type :=
  | Json (d : dict)
  | BookingData (pk : Z) (b : Booking)
  | ListingData (l : list Listing).

Record Response : Type := {
  body : Body;
  status_code : Z
}.

Definition HTTP_400_BAD_REQUEST : Z := 400.
Definition HTTP_403_FORBIDDEN : Z := 403.
Definition HTTP_404_NOT_FOUND : Z := 404.

Definition JsonResponse (d : dict) (code : Z) : Response :=
  {| body := Json d; status_code := code |}.

(** [booking.listing.title if hasattr(booking.listing, 'title') else
    'Listing']: a [Listing] has its [title] field. *)
Definition listing_title (b : Booking) : Val := VStr (title (listing b)).

Definition opt_str (s : option string) : Val :=
  match s with
  | Some s => VStr s
  | None => VNone
  end.

(** [t.strftime(...)] on a nullable column that the code has just set. *)
Definition strftime (t : option Time) : Val :=
  match t with
  | Some t => VStrftime t
  | None => VNone
  end.

Definition CONFIRMATION : string := "send_booking_confirmation_email".
Definition CANCELLATION : string := "send_booking_cancellation_email".

(** ** [verify_payment] (views.py, 700-763) *)

Definition verify_payment (reference : string) : M Response :=
  chapa_response ← verify_chapa_transaction reference;
  found ← try (Payment_objects_get reference);
  match found with
  | inr DoesNotExist =>
      mret (JsonResponse [("error", VStr "Payment not found")] HTTP_404_NOT_FOUND)
  | inr e => raise e
  | inl (pid, payment) =>
      status_value ←
        match data_status chapa_response with
        | Some s => mret s
        | None => raise KeyError
        end;
      payment ←
        (if String.eqb status_value "success" then
           let payment := set_p_status "completed" payment in
           now ← timezone_now;
           let payment := set_p_paid_at (Some now) payment in
           let payment :=
             set_p_chapa_verification_response (Some chapa_response) payment in
           linked ← Payment_booking payment;
           match linked with
           | Some (bid, booking) =>
               let booking := set_status "confirmed" booking in
               let booking := set_payment_status (Some "completed") booking in
               now ← timezone_now;
               let booking := set_paid_at (Some now) booking in
               Booking_save bid booking;;
               let booking_data :=
                 [("booking_id", VInt bid);
                  ("confirmation_number", opt_str (confirmation_number booking));
                  ("listing_title", listing_title booking);
                  ("check_in", VDate (check_in booking));
                  ("check_out", VDate (check_out booking));
                  ("guests", VInt (guests booking));
                  ("total_price", VDecimal (total_price booking));
                  ("paid_at", strftime (paid_at booking))] in
               delay CONFIRMATION booking_data (email (guest booking));;
               mret payment
           | None => mret payment
           end
         else
           let payment := set_p_status "failed" payment in
           let payment :=
             set_p_chapa_verification_response (Some chapa_response) payment in
           linked ← Payment_booking payment;
           match linked with
           | Some (bid, booking) =>
               let booking := set_payment_status (Some "failed") booking in
               Booking_save bid booking;;
               mret payment
           | None => mret payment
           end);
      Payment_save pid payment;;
      mret (JsonResponse
              [("status", VStr (p_status payment));
               ("message", VStr ("Payment " +:+ p_status payment));
               ("payment_id", VInt pid);
               ("booking_id",
                match p_booking payment with
                | Some bid => VInt bid
                | None => VNone
                end)]
              200)
  end.

(** *** What [verify_payment] is specified against *)

(** [reference] belongs to no payment row. *)
Definition no_payment (w : World) (reference : string) : Prop :=
  ∀ pid p, payments w !! pid = Some p -> p_reference p ≠ reference.

(** Row [pid] is the only payment row that carries its reference. *)
Definition sole_payment (w : World) (pid : Z) (p : Payment) : Prop :=
  payments w !! pid = Some p ∧
  ∀ pid' p', payments w !! pid' = Some p' ->
             p_reference p' = p_reference p -> pid' = pid.

Definition payment_not_found : Response :=
  JsonResponse [("error", VStr "Payment not found")] HTTP_404_NOT_FOUND.

(** The booking as [verify_payment] leaves it after a successful
    verification read at time [t]. *)
Definition booking_paid (t : Time) (b : Booking) : Booking :=
  set_paid_at (Some t)
    (set_payment_status (Some "completed") (set_status "confirmed" b)).

(** The payment as [verify_payment] leaves it. *)
Definition payment_verified (st : string) (paid : option Time)
    (resp : ChapaResponse) (p : Payment) : Payment :=
  set_p_chapa_verification_response (Some resp)
    (set_p_paid_at paid (set_p_status st p)).

(** ** Strings of [uuid] and [str.upper] *)

Definition hex_digit (d : N) : ascii :=
  match d with
  | 0%N => "0" | 1%N => "1" | 2%N => "2" | 3%N => "3"
  | 4%N => "4" | 5%N => "5" | 6%N => "6" | 7%N => "7"
  | 8%N => "8" | 9%N => "9" | 10%N => "a" | 11%N => "b"
  | 12%N => "c" | 13%N => "d" | 14%N => "e" | _ => "f"
  end%char.

(** ['%0nx' % v]: the [n] low hexadecimal digits of [v], the most
    significant first. *)
Fixpoint hex (n : nat) (v : N) : string :=
  match n with
  | O => EmptyString
  | S k => String (hex_digit ((v / 16 ^ N.of_nat k) mod 16)%N) (hex k v)
  end.

(** [s[i:j]] for [0 <= i <= j] *)
Definition slice (i j : nat) (s : string) : string := substring i (j - i) s.

(** [str(u)] for a [UUID] of integer value [u]: 8-4-4-4-12 hexadecimal
    digits. *)
Definition uuid_str (u : N) : string :=
  let h := hex 32 u in
  slice 0 8 h +:+ "-" +:+ slice 8 12 h +:+ "-" +:+ slice 12 16 h +:+ "-"
    +:+ slice 16 20 h +:+ "-" +:+ slice 20 32 h.

Definition upper_ascii (c : ascii) : ascii :=
  let n := nat_of_ascii c in
  if ((97 <=? n) && (n <=? 122))%nat then ascii_of_nat (n - 32) else c.

(** [s.upper()] *)
Fixpoint upper (s : string) : string :=
  match s with
  | EmptyString => EmptyString
  | String c rest => String (upper_ascii c) (upper rest)
  end.

Definition lower_ascii (c : ascii) : ascii :=
  let n := nat_of_ascii c in
  if ((65 <=? n) && (n <=? 90))%nat then ascii_of_nat (n + 32) else c.

Fixpoint lower (s : string) : string :=
  match s with
  | EmptyString => EmptyString
  | String c rest => String (lower_ascii c) (lower rest)
  end.

(** An upper-case letter or a digit. *)
Definition upper_alnum (c : ascii) : bool :=
  let n := nat_of_ascii c in
  (((48 <=? n) && (n <=? 57)) || ((65 <=? n) && (n <=? 90)))%nat.

Fixpoint string_forallb (f : ascii -> bool) (s : string) : bool :=
  match s with
  | EmptyString => true
  | String c rest => f c && string_forallb f rest
  end.

(** ** [BookingViewSet] (views.py, 383-534) *)

(** [BookingViewSet.get_queryset]: staff see every booking, other users
    their own. *)
Definition BookingViewSet_get_queryset (user : User) : M (gmap Z Booking) :=
  w ← get_world;
  if is_staff user then mret (bookings w)
  else mret (filter (λ kv, user_id (guest kv.2) = user_id user) (bookings w)).

(** [self.get_object()]: the row of key [pk] in [get_queryset()], or 404. *)
Definition get_object (user : User) (pk : Z) : M (Z * Booking) :=
  qs ← BookingViewSet_get_queryset user;
  match qs !! pk with
  | Some b => mret (pk, b)
  | None => raise Http404
  end.

(** The validated data of a create request. *)
Record CreateBookingData : Type := {
  cb_listing : Listing;
  cb_check_in : Date;
  cb_check_out : Date;
  cb_guests : Z;
  cb_total_price : Decimal;
  cb_confirmation_number : option string
}.

(** Modelled from the spec: [CreateBookingSerializer.save(guest=...)] and
    the [Booking] model's defaults (serializers.py and models.py are not
    among the sources).  A new row is inserted under a fresh key with the
    validated fields, the guest bound to the requesting user, status
    pending, no payment status and the creation time. *)
Definition serializer_save (data : CreateBookingData) (user : User)
    : M (Z * Booking) :=
  now ← timezone_now;
  w ← get_world;
  let pk := fresh (dom (bookings w)) in
  let booking :=
    {| listing := cb_listing data; guest := user;
       check_in := cb_check_in data; check_out := cb_check_out data;
       guests := cb_guests data; total_price := cb_total_price data;
       status := "pending";
       confirmation_number := cb_confirmation_number data;
       payment_status := None; created_at := now; updated_at := now;
       confirmed_at := None; cancelled_at := None; paid_at := None |} in
  Booking_save pk booking;;
  mret (pk, booking).

(** [Payment.objects.create(...)]: a new row under a fresh key. *)
Definition Payment_objects_create (p : Payment) : M (Z * Payment) :=
  w ← get_world;
  let pk := fresh (dom (payments w)) in
  Payment_save pk p;;
  mret (pk, p).

(** [BookingViewSet.initialize_payment] *)
Definition initialize_payment (bid : Z) (booking : Booking)
    : M (option (Z * Payment)) :=
  r ← try (u ← uuid4;
           let reference := uuid_str u in
           Payment_objects_create
             {| p_booking := Some bid; p_amount := total_price booking;
                p_email := ""; p_reference := reference;
                p_transaction_id := None; p_status := "pending";
                p_chapa_verification_response := None; p_paid_at := None |});
  match r with
  | inl payment => mret (Some payment)
  | inr e => mret None
  end.

(** The [booking_data] of [perform_create]. *)
Definition created_booking_data (bid : Z) (booking : Booking) : dict :=
  [("booking_id", VInt bid);
   ("confirmation_number", opt_str (confirmation_number booking));
   ("listing_title", listing_title booking);
   ("check_in", VDate (check_in booking));
   ("check_out", VDate (check_out booking));
   ("guests", VInt (guests booking));
   ("total_price", VDecimal (total_price booking));
   ("created_at", VStrftime (created_at booking));
   ("status", VStr (status booking))].

(** [BookingViewSet.perform_create] *)
Definition perform_create (request_user : User) (data : CreateBookingData)
    : M unit :=
  '(bid, booking) ← serializer_save data request_user;
  booking ←
    (if negb (truthy_str (confirmation_number booking)) then
       u ← uuid4;
       let booking :=
         set_confirmation_number (Some (upper (slice 0 8 (uuid_str u)))) booking in
       Booking_save bid booking;;
       mret booking
     else mret booking);
  delay CONFIRMATION (created_booking_data bid booking) (email request_user);;
  if 0 <? total_price booking then
    _ ← initialize_payment bid booking; mret tt
  else mret tt.

(** [datetime.date()] of a timestamp *)
Definition date_of (t : Time) : Date := t / one_day.

(** Modelled from the spec: [Booking.can_be_cancelled] (models.py is not
    among the sources), the "can be cancelled" business rule of the
    booking: its current status (an already-cancelled booking cannot be
    cancelled) and the time before check-in. *)
Definition can_be_cancelled (booking : Booking) : M bool :=
  if String.eqb (status booking) "cancelled" then mret false
  else
    now ← timezone_now;
    mret (date_of now <? check_in booking).

Definition error_response (msg : string) (code : Z) : Response :=
  {| body := Json [("error", VStr msg)]; status_code := code |}.

(** [BookingViewSet.cancel]; [hasattr(booking, 'can_be_cancelled')] holds,
    the model defines the method. *)
Definition cancel (request_user : User) (pk : Z) : M Response :=
  '(bid, booking) ← get_object request_user pk;
  if negb (user_eqb (guest booking) request_user) && negb (is_staff request_user)
  then
    mret (error_response "You do not have permission to cancel this booking."
            HTTP_403_FORBIDDEN)
  else
    can ← can_be_cancelled booking;
    if negb can then
      mret (error_response "This booking cannot be cancelled."
              HTTP_400_BAD_REQUEST)
    else
      let booking := set_status "cancelled" booking in
      now ← timezone_now;
      let booking := set_cancelled_at (Some now) booking in
      Booking_save bid booking;;
      let booking_data :=
        [("booking_id", VInt bid);
         ("confirmation_number", opt_str (confirmation_number booking));
         ("listing_title", listing_title booking);
         ("cancellation_date", strftime (cancelled_at booking))] in
      delay CANCELLATION booking_data (email request_user);;
      mret {| body := BookingData bid booking; status_code := 200 |}.

(** The [booking_data] of [confirm]. *)
Definition confirmed_booking_data (bid : Z) (booking : Booking) : dict :=
  [("booking_id", VInt bid);
   ("confirmation_number", opt_str (confirmation_number booking));
   ("listing_title", listing_title booking);
   ("check_in", VDate (check_in booking));
   ("check_out", VDate (check_out booking));
   ("confirmed_at", strftime (confirmed_at booking))].

(** [BookingViewSet.confirm], "Confirm a pending booking (admin or host
    only)": the booking's status is not looked at. *)
Definition confirm (request_user : User) (pk : Z) : M Response :=
  '(bid, booking) ← get_object request_user pk;
  if negb (is_staff request_user)
     && negb (user_eqb (host (listing booking)) request_user)
  then
    mret (error_response "Only the host or admin can confirm bookings."
            HTTP_403_FORBIDDEN)
  else
    let booking := set_status "confirmed" booking in
    now ← timezone_now;
    let booking := set_confirmed_at (Some now) booking in
    Booking_save bid booking;;
    delay CONFIRMATION (confirmed_booking_data bid booking)
      (email (guest booking));;
    mret {| body := BookingData bid booking; status_code := 200 |}.

(** ** [ListingViewSet] (views.py, 289-380) *)

(** [Q(check_in__lt=co) & Q(check_out__gt=ci), status__in=['confirmed',
    'active']] on a booking row. *)
Definition blocks (ci co : Date) (kv : Z * Booking) : Prop :=
  check_in kv.2 < co ∧ ci < check_out kv.2 ∧
  status kv.2 ∈ ["confirmed"; "active"]%string.

#[global] Instance blocks_dec ci co kv : Decision (blocks ci co kv).
Proof. unfold blocks. apply _. Defined.

(** [Booking.objects.filter(...).values_list('listing_id', flat=True)] *)
Definition unavailable_listings (w : World) (ci co : Date) : list Z :=
  (λ kv : Z * Booking, listing_id (listing kv.2))
    <$> map_to_list (filter (blocks ci co) (bookings w)).

(** [queryset.exclude(id__in=ids)] *)
Definition exclude_id_in (ids : list Z) (queryset : list Listing) : list Listing :=
  filter (λ l, listing_id l ∉ ids) queryset.

(** [Listing.objects.filter(status='active')] *)
Definition active_listings (w : World) : list Listing :=
  filter (λ l, listing_status l = "active"%string) (listings w).

Fixpoint containsb (needle hay : string) : bool :=
  match hay with
  | EmptyString => String.prefix needle hay
  | String _ rest => String.prefix needle hay || containsb needle rest
  end.

(** [field__icontains=value] *)
Definition icontains (field value : string) : bool :=
  containsb (lower value) (lower field).

(** Truthiness of an optional number: [None] and [0] are falsy. *)
Definition truthy_num (z : option Z) : bool :=
  match z with
  | None => false
  | Some z => negb (z =? 0)
  end.

(** [queryset.filter(cond(v))] applied when [data.get(key)] is truthy. *)
Definition filter_if {V : Type} (v : option V) (truthy : option V -> bool)
    (cond : V -> Listing -> bool) (queryset : list Listing) : list Listing :=
  match v with
  | Some x =>
      if truthy v then filter (λ l, cond x l = true) queryset else queryset
  | None => queryset
  end.

(** The validated data of a search request. *)
Record ListingSearchData : Type := {
  s_city : option string;
  s_country : option string;
  s_guests : option Z;
  s_property_type : option string;
  s_min_price : option Decimal;
  s_max_price : option Decimal;
  s_check_in : option Date;
  s_check_out : option Date;
  s_amenities : option (list string)
}.

(** The filters of [search] that come before the availability check. *)
Definition criteria_filters (data : ListingSearchData) (queryset : list Listing)
    : list Listing :=
  let queryset :=
    filter_if (s_city data) truthy_str (λ v l, icontains (city l) v) queryset in
  let queryset :=
    filter_if (s_country data) truthy_str (λ v l, icontains (country l) v) queryset in
  let queryset :=
    filter_if (s_guests data) truthy_num (λ v l, v <=? max_guests l) queryset in
  let queryset :=
    filter_if (s_property_type data) truthy_str
      (λ v l, String.eqb (property_type l) v) queryset in
  let queryset :=
    filter_if (s_min_price data) truthy_num (λ v l, v <=? base_price l) queryset in
  filter_if (s_max_price data) truthy_num (λ v l, base_price l <=? v) queryset.

(** The amenities filter: some requested amenity flag is set. *)
Definition amenities_filter (data : ListingSearchData) (queryset : list Listing)
    : list Listing :=
  match s_amenities data with
  | Some (a :: rest) =>
      filter (λ l, Exists (λ amenity, amenity ∈ amenities l) (a :: rest)) queryset
  | _ => queryset
  end.

(** The availability check of [search]. *)
Definition availability_filter (w : World) (ci co : option Date)
    (queryset : list Listing) : list Listing :=
  match ci, co with
  | Some ci, Some co => exclude_id_in (unavailable_listings w ci co) queryset
  | _, _ => queryset
  end.

(** [ListingViewSet.search]: the queryset handed to the paginator and the
    serializer, or the serializer's errors. *)
Definition search (request_data : ListingSearchData + dict) : M Response :=
  match request_data with
  | inl data =>
      w ← get_world;
      let queryset := active_listings w in
      let queryset := criteria_filters data queryset in
      let queryset :=
        availability_filter w (s_check_in data) (s_check_out data) queryset in
      let queryset := amenities_filter data queryset in
      mret {| body := ListingData queryset; status_code := 200 |}
  | inr errors =>
      mret {| body := Json errors; status_code := HTTP_400_BAD_REQUEST |}
  end.

Section ListingQuery.

(** [DateField.to_python] on a query-string value: the date the string
    denotes, if it denotes one. *)
Variable parse_date : string -> option Date.

(** [ListingViewSet.get_queryset] with the query parameters [check_in]
    and [check_out]. *)
Definition ListingViewSet_get_queryset (check_in check_out : option string)
    : M (list Listing) :=
  w ← get_world;
  let queryset := active_listings w in
  if truthy_str check_in && truthy_str check_out then
    match check_in ≫= parse_date, check_out ≫= parse_date with
    | Some ci, Some co =>
        mret (exclude_id_in (unavailable_listings w ci co) queryset)
    | _, _ => raise ValidationError
    end
  else mret queryset.

End ListingQuery.

(** ** Creating a booking *)

Definition HTTP_201_CREATED : Z := 201.

(** An existing booking of the requested listing, confirmed or active,
    whose stay overlaps the requested one. *)
Definition overlapping (data : CreateBookingData) (kv : Z * Booking) : Prop :=
  listing_id (listing kv.2) = listing_id (cb_listing data) ∧
  blocks (cb_check_in data) (cb_check_out data) kv.

#[global] Instance overlapping_dec data kv : Decision (overlapping data kv).
Proof. unfold overlapping. apply _. Defined.

(** Modelled from the spec: the validation of [CreateBookingSerializer]
    (serializers.py is not among the sources).  Create "validates no
    overlapping confirmed/active booking exists for the listing over
    [check_in, check_out); fails with ConflictError if one exists", with
    the overlap test of the listing search. *)
Definition is_valid (data : CreateBookingData) : M unit :=
  w ← get_world;
  match map_to_list (filter (overlapping data) (bookings w)) with
  | [] => mret tt
  | _ :: _ => raise ConflictError
  end.

(** [BookingViewSet.create], inherited from the framework's
    [CreateModelMixin]: the serializer of the create action validates the
    request, then [perform_create] runs on the validated data. *)
Definition create (request_user : User) (data : CreateBookingData) : M Z :=
  is_valid data;;
  perform_create request_user data;;
  mret HTTP_201_CREATED.

(** ** [listings/tasks.py] *)

(** *** [cleanup_old_bookings] (tasks.py, 202-225) *)

(** [status='cancelled', updated_at__lt=cutoff_date] on a booking row. *)
Definition old_cancelled (cutoff_date : Time) (kv : Z * Booking) : Prop :=
  status kv.2 = "cancelled"%string ∧ updated_at kv.2 < cutoff_date.

#[global] Instance old_cancelled_dec c kv : Decision (old_cancelled c kv).
Proof. unfold old_cancelled. apply _. Defined.

(** The [on_delete] of [Payment.booking], the foreign key through which
    payments point at bookings.  It is declared in models.py, which is
    not among the sources, so the deletion takes it as a parameter:
    delete the payments too, clear their [booking], or refuse the
    deletion.  ([RESTRICT] refuses like [PROTECT] here, since nothing
    else is deleted along; [SET_DEFAULT], [SET] and [DO_NOTHING] are not
    covered.) *)
Inductive OnDelete : Type :=
  | CASCADE
  | SET_NULL
  | PROTECT.

(** The payment's [booking] is one of the rows [gone]. *)
Definition points_into (gone : gmap Z Booking) (p : Payment) : Prop :=
  match p_booking p with
  | Some bid => is_Some (gone !! bid)
  | None => False
  end.

#[global] Instance points_into_dec gone p : Decision (points_into gone p).
Proof. unfold points_into. destruct (p_booking p); apply _. Defined.

(** [queryset.delete()] on the bookings that satisfy [P].  The rows are
    collected with the payments that point at them; [PROTECT] raises
    before anything is deleted. *)
Definition QuerySet_delete (on_delete : OnDelete) (P : Z * Booking -> Prop)
    `{!∀ kv, Decision (P kv)} : M unit :=
  w ← get_world;
  let gone := filter P (bookings w) in
  let kept := filter (λ kv, ¬ P kv) (bookings w) in
  match on_delete with
  | CASCADE =>
      modify (λ w, set_payments
        (filter (λ kv, ¬ points_into gone kv.2) (payments w))
        (set_bookings kept w))
  | SET_NULL =>
      modify (λ w, set_payments
        ((λ p, if decide (points_into gone p) then set_p_booking None p
               else p) <$> payments w)
        (set_bookings kept w))
  | PROTECT =>
      match map_to_list (filter (λ kv, points_into gone kv.2) (payments w)) with
      | [] => modify (set_bookings kept)
      | _ :: _ => raise ProtectedError
      end
  end.

Definition cleaned_up (count : nat) : string :=
  "Cleaned up " +:+ pretty count +:+ " old cancelled bookings".

(** The task returns a string on both paths. *)
Definition cleanup_old_bookings (on_delete : OnDelete) : M Val :=
  r ← try (
    now ← timezone_now;
    let cutoff_date := now - timedelta_days 30 in
    w ← get_world;
    let count := size (filter (old_cancelled cutoff_date) (bookings w)) in
    QuerySet_delete on_delete (old_cancelled cutoff_date);;
    mret (VStr (cleaned_up count)));
  match r with
  | inl message => mret message
  | inr e => mret (VStr ("Error: " +:+ exn_str e))
  end.

(** *** [send_booking_confirmation_email] (tasks.py, 12-56) *)

(** The template context the task builds from its arguments; [now]
    is [timezone.now()], the default of [booking_date]. *)
Record ConfirmationContext : Type := {
  ctx_booking : dict;
  ctx_user_email : string;
  ctx_booking_date : Val;
  ctx_confirmation_number : Val
}.

Definition confirmation_context (data : dict) (to : string) (now : Val)
    : ConfirmationContext :=
  {| ctx_booking := data;
     ctx_user_email := to;
     ctx_booking_date := dict_get data "created_at" now;
     ctx_confirmation_number := dict_get data "confirmation_number" (VStr "N/A") |}.

Module Celery.

(** How one execution of a task body ends: it returns, it raises
    [Retry] after re-sending itself with a countdown, or it raises
    another exception. *)
Inductive Outcome : Type :=
  | Returned (result : string)
  | RetryRaised (countdown : Z)
  | Raised.

(** [self.retry(exc=e, countdown=c)] in a task bound with
    [max_retries]: with [request.retries] retries behind it, the task
    is sent again unless [request.retries + 1 > max_retries], when
    [exc] is raised instead. *)
Definition retry (max_retries request_retries : nat) (countdown : Z) : Outcome :=
  if (max_retries <? request_retries + 1)%nat then Raised
  else RetryRaised countdown.

Inductive LogLine : Type :=
  | Info (msg : string)
  | Error (msg : string).

Definition max_retries : nat := 3.

(** The message handed to the mail transport: the subject, the context
    the bodies are rendered from, and the addresses. *)
Record EmailMessage : Type := {
  subject : string;
  context : ConfirmationContext;
  from_email : string;
  to : list string;
  cc : list string;
  reply_to : list string
}.

(** What the task reads from outside: [settings.DEFAULT_FROM_EMAIL], the
    clock at the execution with [n] retries behind it, and whether
    rendering and sending the message go through without an exception
    on that execution. *)
Record Mail : Type := {
  DEFAULT_FROM_EMAIL : string;
  clock : nat -> Time;
  delivered : nat -> EmailMessage -> bool
}.

(** The value of an f-string field *)
Definition format_val (v : Val) : string :=
  match v with
  | VStr s => s
  | VInt z => pretty z
  | _ => ""
  end.

(** The task body, [max_retries=3]. *)
Definition send_booking_confirmation_email (mail : Mail)
    (request_retries : nat) (data : dict) (user_email : string)
    : list LogLine * Outcome :=
  let subject :=
    "Booking Confirmation - "
      +:+ format_val (dict_get data "booking_id" (VStr "New Booking")) in
  let context :=
    confirmation_context data user_email (VDatetime (clock mail request_retries)) in
  let email :=
    {| subject := subject; context := context;
       from_email := DEFAULT_FROM_EMAIL mail; to := [user_email];
       cc := [DEFAULT_FROM_EMAIL mail]; reply_to := [DEFAULT_FROM_EMAIL mail] |} in
  if delivered mail request_retries email then
    ([Info ("Booking confirmation email sent successfully to " +:+ user_email)],
     Returned ("Email sent to " +:+ user_email))
  else
    ([Error "Failed to send booking confirmation email"],
     retry max_retries request_retries 300).

Inductive JobState : Type :=
  | SUCCESS
  | FAILURE
  | RETRY.

(** What a worker has done with a job. *)
Record Run : Type := {
  executions : nat;
  countdowns : list Z;
  log : list LogLine;
  state : JobState
}.

(** The worker executes the job and every retry the job asks for.
    [fuel] bounds the executions looked at; a run that is cut short is
    left in state [RETRY]. *)
Fixpoint worker (fuel : nat) (mail : Mail) (request_retries : nat)
    (data : dict) (user_email : string) : Run :=
  match fuel with
  | O => {| executions := 0; countdowns := []; log := []; state := RETRY |}
  | S fuel' =>
      let '(lines, outcome) :=
        send_booking_confirmation_email mail request_retries data user_email in
      match outcome with
      | Returned _ =>
          {| executions := 1; countdowns := []; log := lines; state := SUCCESS |}
      | Raised =>
          {| executions := 1; countdowns := []; log := lines; state := FAILURE |}
      | RetryRaised countdown =>
          let rest := worker fuel' mail (S request_retries) data user_email in
          {| executions := S (executions rest);
             countdowns := countdown :: countdowns rest;
             log := lines ++ log rest;
             state := state rest |}
      end
  end.

End Celery.

(** ** Sample data *)

Module Sample.

Definition alice : User :=
  {| user_id := 1; email := "alice@example.com"; is_staff := false |}.
Definition bob : User :=
  {| user_id := 2; email := "bob@example.com"; is_staff := false |}.
Definition carol : User :=
  {| user_id := 3; email := "carol@example.com"; is_staff := true |}.

Definition villa : Listing :=
  {| listing_id := 10; host := bob; title := "Luxury Beach Villa";
     listing_status := "active"; city := "Accra"; country := "Ghana";
     max_guests := 4; property_type := "villa"; base_price := 15000;
     amenities := ["wifi"%string] |}.

(** 2024-12-25 to 2024-12-30, as day ordinals. *)
Definition dec25 : Date := 20082.
Definition dec30 : Date := 20087.

Definition t0 : Time := 1733000000000000.

Definition stay (st : string) : Booking :=
  {| listing := villa; guest := alice; check_in := dec25; check_out := dec30;
     guests := 2; total_price := 75000; status := st;
     confirmation_number := Some "1A2B3C4D"%string; payment_status := None;
     created_at := t0; updated_at := t0; confirmed_at := None;
     cancelled_at := None; paid_at := None |}.

Definition charge : Payment :=
  {| p_booking := Some 5; p_amount := 75000; p_email := "alice@example.com";
     p_reference := "ref-1"; p_transaction_id := None; p_status := "pending";
     p_chapa_verification_response := None; p_paid_at := None |}.

(** The gateway answers [answer] to every verify call. *)
Definition oracle_answering (answer : string) : Oracle :=
  {| now_at := λ n, t0 + one_day + Z.of_nat n;
     uuid_at := λ n, (0x9f8e7d6c5b4a39281706f5e4d3c2b1a0 + N.of_nat n)%N;
     chapa_verify := λ _, {| data_status := Some answer |} |}.

(** One booking (key 5) in status [st], one payment (key 7) linked to
    it, one listing. *)
Definition world (st answer : string) : World :=
  {| oracle := oracle_answering answer; ticks := 0; uuids_drawn := 0;
     bookings := {[ 5 := stay st ]};
     payments := {[ 7 := charge ]};
     listings := [villa];
     queue := [];
     gateway_calls := [] |}.

Definition request (price : Decimal) : CreateBookingData :=
  {| cb_listing := villa; cb_check_in := dec25 + 1; cb_check_out := dec30 - 1;
     cb_guests := 2; cb_total_price := price;
     cb_confirmation_number := None |}.

End Sample.

(** *** What the booking and listing views are specified against *)

(** Some confirmed or active booking of listing [lid] overlaps the window
    [[ci, co)]: [existing.check_in < co] and [existing.check_out > ci]. *)
Definition overlapped (w : World) (lid : Z) (ci co : Date) : Prop :=
  ∃ pk b, bookings w !! pk = Some b ∧
          listing_id (listing b) = lid ∧
          status b ∈ ["confirmed"; "active"]%string ∧
          check_in b < co ∧ check_out b > ci.

(** The request asks for a window that a confirmed or active booking of
    the same listing overlaps. *)
Definition conflicting (w : World) (data : CreateBookingData) : Prop :=
  overlapped w (listing_id (cb_listing data)) (cb_check_in data) (cb_check_out data).

(** The actor may cancel the booking: its guest, or staff. *)
Definition may_cancel (actor : User) (b : Booking) : Prop :=
  user_id (guest b) = user_id actor ∨ is_staff actor = true.

Definition cannot_be_cancelled : Response :=
  error_response "This booking cannot be cancelled." HTTP_400_BAD_REQUEST.

Module SampleSearch.

(** A search for a villa in Accra over 26-29 December. *)
Definition data : ListingSearchData :=
  {| s_city := Some "accra"%string; s_country := None; s_guests := Some 2;
     s_property_type := Some "villa"%string; s_min_price := None;
     s_max_price := Some 20000;
     s_check_in := Some (Sample.dec25 + 1);
     s_check_out := Some (Sample.dec30 - 1);
     s_amenities := Some ["wifi"%string] |}.

(** The two query-string dates of the sample. *)
Definition parse_date (s : string) : option Date :=
  if String.eqb s "2024-12-26" then Some (Sample.dec25 + 1)
  else if String.eqb s "2024-12-29" then Some (Sample.dec30 - 1)
  else None.

End SampleSearch.

(** A mail system where no execution gets the message out. *)
Definition mail_down : Celery.Mail :=
  {| Celery.DEFAULT_FROM_EMAIL := "noreply@example.com";
     Celery.clock := λ n, Sample.t0 + 300000000 * Z.of_nat n;
     Celery.delivered := λ _ _, false |}.

(** Bookings for the cleanup job: the clock reads [Sample.t0 + one_day];
    booking 1 was cancelled and last updated 31 days before that,
    booking 2 was cancelled 29 days before, booking 3 is confirmed and
    was last updated 40 days before. *)
Definition aged (st : string) (days : Z) : Booking :=
  {| listing := Sample.villa; guest := Sample.alice;
     check_in := Sample.dec25; check_out := Sample.dec30;
     guests := 2; total_price := 75000; status := st;
     confirmation_number := Some "1A2B3C4D"%string; payment_status := None;
     created_at := Sample.t0 - timedelta_days 60;
     updated_at := Sample.t0 + one_day - timedelta_days days;
     confirmed_at := None; cancelled_at := None; paid_at := None |}.

Definition cleanup_world : World :=
  set_bookings
    (<[1 := aged "cancelled" 31]>
       (<[2 := aged "cancelled" 29]> {[ 3 := aged "confirmed" 40 ]}))
    (Sample.world "pending" "success").

(** The cleanup sample with two payments: payment 7 is for booking 1,
    payment 8 for booking 2. *)
Definition cleanup_world_paid : World :=
  set_payments
    (<[7 := set_p_booking (Some 1) Sample.charge]>
       {[ 8 := set_p_booking (Some 2) Sample.charge ]})
    cleanup_world.

(** ** More sample data *)

(** The gateway answers without a [data.status]. *)
Definition silent_world : World :=
  {| oracle :=
       {| now_at := now_at (Sample.oracle_answering "");
          uuid_at := uuid_at (Sample.oracle_answering "");
          chapa_verify := λ _, {| data_status := None |} |};
     ticks := 0; uuids_drawn := 0;
     bookings := {[ 5 := Sample.stay "pending" ]};
     payments := {[ 7 := Sample.charge ]};
     listings := [Sample.villa];
     queue := [];
     gateway_calls := [] |}.

(** ** The list actions of [BookingViewSet] (views.py, 536-579)

    Each action is given as the rows its response serializes. *)

(** Row [a] comes no later than row [b] in ascending order of [key]. *)
Definition by_key (key : Booking -> Z) : relation (Z * Booking) :=
  λ a b, key a.2 ≤ key b.2.

#[global] Instance by_key_dec key : RelDecision (by_key key).
Proof. intros a b. unfold by_key. apply _. Defined.

#[global] Instance by_key_total key : Total (by_key key).
Proof. intros a b. unfold by_key. lia. Qed.

#[global] Instance by_key_transitive key : Transitive (by_key key).
Proof. intros a b c. unfold by_key. lia. Qed.

(** [queryset.order_by(key)]: ascending in [key].  Rows with equal keys
    come in whatever order the database gives them; here, the order
    merge sort leaves them in. *)
Definition order_by (key : Booking -> Z) (rows : list (Z * Booking))
    : list (Z * Booking) :=
  merge_sort (by_key key) rows.

(** [Booking.objects.filter(guest=user, check_in__gte=today,
    status='confirmed')] on a row. *)
Definition is_upcoming (user : User) (today : Date) (kv : Z * Booking) : Prop :=
  user_id (guest kv.2) = user_id user ∧ today ≤ check_in kv.2 ∧
  status kv.2 = "confirmed"%string.

#[global] Instance is_upcoming_dec user today kv : Decision (is_upcoming user today kv).
Proof. unfold is_upcoming. apply _. Defined.

(** [Booking.objects.filter(guest=user, check_out__lt=today)] on a row. *)
Definition is_past (user : User) (today : Date) (kv : Z * Booking) : Prop :=
  user_id (guest kv.2) = user_id user ∧ check_out kv.2 < today.

#[global] Instance is_past_dec user today kv : Decision (is_past user today kv).
Proof. unfold is_past. apply _. Defined.

(** [BookingViewSet.upcoming] *)
Definition upcoming (request_user : User) : M (list (Z * Booking)) :=
  now ← timezone_now;
  w ← get_world;
  mret (order_by check_in
          (map_to_list (filter (is_upcoming request_user (date_of now)) (bookings w)))).

(** [BookingViewSet.past], ordered by [-check_out]. *)
Definition past (request_user : User) : M (list (Z * Booking)) :=
  now ← timezone_now;
  w ← get_world;
  mret (order_by (λ b, - check_out b)
          (map_to_list (filter (is_past request_user (date_of now)) (bookings w)))).

(** [Listing.objects.filter(host=user)], as the ids that
    [listing__in=user_listings] compares with. *)
Definition user_listings (w : World) (user : User) : list Z :=
  listing_id <$> filter (λ l, user_id (host l) = user_id user) (listings w).

(** [BookingViewSet.host_bookings], ordered by [-created_at].  The
    viewset admits authenticated users only, so the action's own
    [is_authenticated] test passes. *)
Definition host_bookings (request_user : User) : M (list (Z * Booking)) :=
  w ← get_world;
  mret (order_by (λ b, - created_at b)
          (map_to_list
             (filter (λ kv, listing_id (listing kv.2) ∈ user_listings w request_user)
                (bookings w)))).

Section ListingDetail.

(** [DateField.to_python], as in [ListingViewSet_get_queryset]. *)
Variable parse_date : string -> option Date.

(** [self.get_object()] of [ListingViewSet], for a request whose query
    string holds at most [check_in] and [check_out]: the listing of key
    [pk] in [get_queryset()], or 404. *)
Definition ListingViewSet_get_object (check_in check_out : option string)
    (pk : Z) : M Listing :=
  queryset ← ListingViewSet_get_queryset parse_date check_in check_out;
  match filter (λ l, listing_id l = pk) queryset with
  | [] => raise Http404
  | [l] => mret l
  | _ => raise MultipleObjectsReturned
  end.

(** [ListingViewSet.bookings]: [listing.bookings.all()], the bookings
    whose foreign key is the listing. *)
Definition ListingViewSet_bookings (check_in check_out : option string)
    (pk : Z) : M (list (Z * Booking)) :=
  l ← ListingViewSet_get_object check_in check_out pk;
  w ← get_world;
  mret (map_to_list
          (filter (λ kv, listing_id (listing kv.2) = listing_id l) (bookings w))).

End ListingDetail.

(** ** [start_payment] (views.py, 636-697) *)

(** The gateway's answer to an initialize call: [response.get("status")],
    [response["data"]["tx_ref"]] and [response["data"]["checkout_url"]],
    each [None] when the key is missing. *)
Record ChapaInitResponse : Type := {
  init_status : option string;
  init_tx_ref : option string;
  init_checkout_url : option string
}.

(** The query parameters of the request. *)
Record StartPaymentQuery : Type := {
  q_amount : option string;
  q_email : option string;
  q_booking_id : option string
}.

Definition HTTP_500_INTERNAL_SERVER_ERROR : Z := 500.

Section StartPayment.

(** The gateway's initialize operation on amount, email and reference. *)
Variable initialize_chapa_transaction : string -> string -> string -> ChapaInitResponse.

(** The conversions the ORM applies to the strings of the query: the
    integer of a primary key and the decimal of an amount, if the string
    denotes one. *)
Variable to_int : string -> option Z.
Variable to_decimal : string -> option Decimal.

(** [Booking.objects.get(id=booking_id)] when [booking_id] is truthy;
    [inr] holds the message of the exception. *)
Definition start_payment_booking (booking_id : option string)
    : M (option (Z * Booking) + string) :=
  if truthy_str booking_id then
    match booking_id ≫= to_int with
    | None => mret (inr "Field 'id' expected a number"%string)
    | Some bid =>
        w ← get_world;
        match bookings w !! bid with
        | Some b => mret (inl (Some (bid, b)))
        | None => mret (inr "Booking matching query does not exist."%string)
        end
    end
  else mret (inl None).

(** The body of the [try] block: what it returns, or the message of the
    exception that [except Exception as e] catches.  What the block has
    written before the exception stays written.  The Payment row holds
    the columns the views read; the raw gateway payload column
    [chapa_response] that [create] also fills is not among them.  The
    response's nested ["data"] object is given with dotted keys. *)
Definition start_payment_store (amount email reference : string)
    (booking_id : option string) (chapa_response : ChapaInitResponse)
    : M (Response + string) :=
  found ← start_payment_booking booking_id;
  match found with
  | inr message => mret (inr message)
  | inl booking =>
      match init_tx_ref chapa_response with
      | None => mret (inr "'tx_ref'"%string)
      | Some tx_ref =>
          match to_decimal amount with
          | None => mret (inr "value must be a decimal number"%string)
          | Some amount_value =>
              '(pid, payment) ← Payment_objects_create
                {| p_booking := fst <$> booking; p_amount := amount_value;
                   p_email := email; p_reference := reference;
                   p_transaction_id := Some tx_ref; p_status := "pending";
                   p_chapa_verification_response := None; p_paid_at := None |};
              match booking with
              | Some (bid, b) =>
                  Booking_save bid (set_payment_status (Some "pending"%string) b)
              | None => mret tt
              end;;
              match init_checkout_url chapa_response with
              | None => mret (inr "'checkout_url'"%string)
              | Some checkout_url =>
                  mret (inl (JsonResponse
                    [("status", VStr "success");
                     ("message", VStr "Payment initialized successfully.");
                     ("data.checkout_url", VStr checkout_url);
                     ("data.reference", VStr reference);
                     ("data.payment_id", VInt pid)] 200))
              end
          end
      end
  end.

Definition start_payment (query : StartPaymentQuery) : M Response :=
  match q_amount query, q_email query with
  | Some amount, Some email =>
      if negb (truthy_str (Some amount)) || negb (truthy_str (Some email)) then
        mret (error_response "Amount and email are required." HTTP_400_BAD_REQUEST)
      else
        u ← uuid4;
        let reference := uuid_str u in
        let chapa_response := initialize_chapa_transaction amount email reference in
        if negb (bool_decide (init_status chapa_response = Some "success"%string))
        then
          mret (error_response "Failed to initialize payment."
                  HTTP_500_INTERNAL_SERVER_ERROR)
        else
          r ← start_payment_store amount email reference (q_booking_id query)
                chapa_response;
          match r with
          | inl response => mret response
          | inr message =>
              mret (error_response message HTTP_500_INTERNAL_SERVER_ERROR)
          end
  | _, _ =>
      mret (error_response "Amount and email are required." HTTP_400_BAD_REQUEST)
  end.

End StartPayment.

(** The query names an amount and an email, both non-empty. *)
Definition asks_payment (query : StartPaymentQuery) (amount email : string) : Prop :=
  q_amount query = Some amount ∧ amount ≠ ""%string ∧
  q_email query = Some email ∧ email ≠ ""%string.

(** The gateway accepted the initialize call and answered with a
    transaction reference. *)
Definition initialized (r : ChapaInitResponse) (tx_ref : string) : Prop :=
  init_status r = Some "success"%string ∧ init_tx_ref r = Some tx_ref.

(** The Payment row [start_payment] creates. *)
Definition started (booking : option Z) (amount : Decimal)
    (email reference tx_ref : string) : Payment :=
  {| p_booking := booking; p_amount := amount; p_email := email;
     p_reference := reference; p_transaction_id := Some tx_ref;
     p_status := "pending"; p_chapa_verification_response := None;
     p_paid_at := None |}.

Module SamplePay.

(** A gateway that accepts every transaction and one that refuses. *)
Definition accepting (amount email reference : string) : ChapaInitResponse :=
  {| init_status := Some "success"%string; init_tx_ref := Some reference;
     init_checkout_url := Some "https://checkout.example/pay"%string |}.

Definition refusing (amount email reference : string) : ChapaInitResponse :=
  {| init_status := Some "failed"%string; init_tx_ref := None;
     init_checkout_url := None |}.

Definition to_int (s : string) : option Z :=
  if String.eqb s "5" then Some 5
  else if String.eqb s "6" then Some 6
  else None.

Definition to_decimal (s : string) : option Decimal :=
  if String.eqb s "750.00" then Some 75000 else None.

Definition query (booking_id : string) : StartPaymentQuery :=
  {| q_amount := Some "750.00"%string;
     q_email := Some "alice@example.com"%string;
     q_booking_id := Some booking_id |}.

End SamplePay.

(** *** What [search] is specified against *)

(** An optional string, number or list with its falsy values ([''], [0],
    [[]]) taken for absent. *)
Definition given_str (s : option string) : option string :=
  if truthy_str s then s else None.

Definition given_num (z : option Z) : option Z :=
  if truthy_num z then z else None.

Definition given_list (l : option (list string)) : option (list string) :=
  match l with
  | Some (a :: rest) => l
  | _ => None
  end.

(** The search data with every falsy criterion taken for absent. *)
Definition without_falsy (data : ListingSearchData) : ListingSearchData :=
  {| s_city := given_str (s_city data);
     s_country := given_str (s_country data);
     s_guests := given_num (s_guests data);
     s_property_type := given_str (s_property_type data);
     s_min_price := given_num (s_min_price data);
     s_max_price := given_num (s_max_price data);
     s_check_in := s_check_in data;
     s_check_out := s_check_out data;
     s_amenities := given_list (s_amenities data) |}.

(** Listing [L] meets the criteria that [data] gives with a truthy
    value, and is free over the window when [data] gives both dates. *)
Definition meets (w : World) (data : ListingSearchData) (L : Listing) : Prop :=
  (∀ v, given_str (s_city data) = Some v -> icontains (city L) v = true) ∧
  (∀ v, given_str (s_country data) = Some v -> icontains (country L) v = true) ∧
  (∀ v, given_num (s_guests data) = Some v -> v ≤ max_guests L) ∧
  (∀ v, given_str (s_property_type data) = Some v -> property_type L = v) ∧
  (∀ v, given_num (s_min_price data) = Some v -> v ≤ base_price L) ∧
  (∀ v, given_num (s_max_price data) = Some v -> base_price L ≤ v) ∧
  (∀ ci co, s_check_in data = Some ci -> s_check_out data = Some co ->
            ¬ overlapped w (listing_id L) ci co) ∧
  (∀ wanted, given_list (s_amenities data) = Some wanted ->
             ∃ amenity, amenity ∈ wanted ∧ amenity ∈ amenities L).

(** A stay that has begun and not ended when the clock of the sample
    worlds is read. *)
Definition stay_in_progress : Booking :=
  {| listing := Sample.villa; guest := Sample.alice;
     check_in := 20050; check_out := 20060;
     guests := 2; total_price := 75000; status := "confirmed";
     confirmation_number := Some "1A2B3C4D"%string; payment_status := None;
     created_at := Sample.t0 - timedelta_days 60;
     updated_at := Sample.t0 - timedelta_days 60;
     confirmed_at := None; cancelled_at := None; paid_at := None |}.

(** The search data with both dates of the window removed. *)
Definition without_window (data : ListingSearchData) : ListingSearchData :=
  {| s_city := s_city data; s_country := s_country data;
     s_guests := s_guests data; s_property_type := s_property_type data;
     s_min_price := s_min_price data; s_max_price := s_max_price data;
     s_check_in := None; s_check_out := None;
     s_amenities := s_amenities data |}.

(** A mail system that gets the message out from the third execution on. *)
Definition mail_back_after_two : Celery.Mail :=
  {| Celery.DEFAULT_FROM_EMAIL := "noreply@example.com";
     Celery.clock := λ n, Sample.t0 + 300000000 * Z.of_nat n;
     Celery.delivered := λ n _, (2 <=? n)%nat |}.

(** The booking row [perform_create] leaves when it generates the
    confirmation number from the uuid [u], the clock reading [now]. *)
Definition created_booking (data : CreateBookingData) (user : User)
    (now : Time) (u : N) : Booking :=
  {| listing := cb_listing data; guest := user;
     check_in := cb_check_in data; check_out := cb_check_out data;
     guests := cb_guests data; total_price := cb_total_price data;
     status := "pending";
     confirmation_number := Some (upper (slice 0 8 (uuid_str u)));
     payment_status := None; created_at := now; updated_at := now;
     confirmed_at := None; cancelled_at := None; paid_at := None |}.

(** The Payment row [initialize_payment] creates. *)
Definition initial_payment (bid : Z) (amount : Decimal) (reference : string)
    : Payment :=
  {| p_booking := Some bid; p_amount := amount; p_email := "";
     p_reference := reference; p_transaction_id := None; p_status := "pending";
     p_chapa_verification_response := None; p_paid_at := None |}.

(** *** [send_daily_booking_summary] (tasks.py, 149-199) *)

(** The template context of the digest. *)
Record DailySummary : Type := {
  ds_date : Date;
  ds_total_bookings : nat;
  ds_confirmed_count : nat;
  ds_cancelled_count : nat;
  ds_total_revenue : Decimal;
  ds_bookings : list (Z * Booking)
}.

(** [created_at__date=today] on a booking row. *)
Definition created_on (today : Date) (kv : Z * Booking) : Prop :=
  date_of (created_at kv.2) = today.

#[global] Instance created_on_dec today kv : Decision (created_on today kv).
Proof. unfold created_on. apply _. Defined.

(** [status=st] on a booking row. *)
Definition has_status (st : string) (kv : Z * Booking) : Prop :=
  status kv.2 = st.

#[global] Instance has_status_dec st kv : Decision (has_status st kv).
Proof. unfold has_status. apply _. Defined.

(** [queryset.aggregate(total=Sum('total_price'))['total']]: [None] over
    no rows. *)
Definition Sum_total_price (rows : gmap Z Booking) : option Decimal :=
  match map_to_list rows with
  | [] => None
  | first :: rest => Some (foldr (λ kv acc, total_price kv.2 + acc) 0 (first :: rest))
  end.

(** [total or 0] *)
Definition or_0 (total : option Decimal) : Decimal :=
  match total with
  | Some v => v
  | None => 0
  end.

(** The context built from the bookings created on [today]
    ([date.today()]). *)
Definition daily_summary_context (today : Date) (w : World) : DailySummary :=
  let todays_bookings := filter (created_on today) (bookings w) in
  let confirmed_count := size (filter (has_status "confirmed") todays_bookings) in
  let cancelled_count := size (filter (has_status "cancelled") todays_bookings) in
  let total_revenue :=
    or_0 (Sum_total_price (filter (has_status "confirmed") todays_bookings)) in
  {| ds_date := today;
     ds_total_bookings := size todays_bookings;
     ds_confirmed_count := confirmed_count;
     ds_cancelled_count := cancelled_count;
     ds_total_revenue := total_revenue;
     ds_bookings := take 10 (map_to_list todays_bookings) |}.

(** The task: it builds the context from the table and returns [True]
    when the digest went out, [False] when rendering or sending raised
    and the handler logged it ([delivered] tells which). *)
Definition send_daily_booking_summary (today : Date)
    (delivered : DailySummary -> bool) : M bool :=
  w ← get_world;
  mret (delivered (daily_summary_context today w)).

(** * Properties *)

(** ** Running the monad *)

Lemma bind_inl {A B : Type} (m : M A) (f : A -> M B) w w' a :
  m w = (w', inl a) -> (m ≫= f) w = f a w'.
Proof. intros H. unfold mbind, M_bind. now rewrite H. Qed.

Lemma bind_inr {A B : Type} (m : M A) (f : A -> M B) w w' e :
  m w = (w', inr e) -> (m ≫= f) w = (w', inr e).
Proof. intros H. unfold mbind, M_bind. now rewrite H. Qed.

(** ** Looking a payment up by its reference *)

Lemma Payment_objects_get_absent w reference :
  no_payment w reference ->
  Payment_objects_get reference w = (w, inr DoesNotExist).
Proof.
  intros Hno. unfold Payment_objects_get.
  rewrite (bind_inl get_world _ w w w) by reflexivity.
  replace (filter (λ kv, p_reference kv.2 = reference) (payments w))
    with (∅ : gmap Z Payment); [now rewrite map_to_list_empty|].
  symmetry. apply map_eq. intros i. rewrite lookup_empty.
  apply map_lookup_filter_None. right. intros p Hp Hr.
  exact (Hno i p Hp Hr).
Qed.

Lemma Payment_objects_get_sole w pid p :
  sole_payment w pid p ->
  Payment_objects_get (p_reference p) w = (w, inl (pid, p)).
Proof.
  intros [Hp Huniq]. unfold Payment_objects_get.
  rewrite (bind_inl get_world _ w w w) by reflexivity.
  replace (filter (λ kv, p_reference kv.2 = p_reference p) (payments w))
    with ({[pid := p]} : gmap Z Payment); [now rewrite map_to_list_singleton|].
  apply map_eq. intros i. destruct (decide (i = pid)) as [->|Hne].
  - rewrite lookup_singleton_eq. symmetry.
    apply map_lookup_filter_Some. now split.
  - rewrite lookup_singleton_ne by congruence. symmetry.
    apply map_lookup_filter_None. right. intros p' Hp' Hr.
    apply Hne. now apply (Huniq i p').
Qed.

Lemma try_eq {A : Type} (m : M A) w w' r :
  m w = (w', r) -> try m w = (w', inl r).
Proof. intros H. unfold try. now rewrite H. Qed.

(** Unfolds the monad's operations and runs the view as far as the
    tables' contents allow. *)
Ltac run_view :=
  repeat (progress (
    unfold mbind, M_bind, mret, M_ret, raise, get_world, modify,
      Payment_booking, timezone_now, uuid4, Booking_save, Payment_save, delay;
    cbn -[lookup insert])).

(** ** [verify_payment] *)

(** C9, as the code has it: for a reference that no Payment row carries,
    [verify_payment] calls the gateway's verify operation first, then
    looks the Payment up and answers 404 "Payment not found"; the Payment
    and Booking tables and the job queue are left as they were. *)
Theorem verify_payment_unknown_reference (w : World) (reference : string) :
  no_payment w reference ->
  ∃ w',
    verify_payment reference w = (w', inl payment_not_found) ∧
    gateway_calls w' = gateway_calls w ++ [reference] ∧
    payments w' = payments w ∧
    bookings w' = bookings w ∧
    queue w' = queue w.
Proof.
  intros Hno.
  set (w1 := set_gateway_calls (gateway_calls w ++ [reference]) w).
  exists w1. split; [|repeat split].
  unfold verify_payment.
  rewrite (bind_inl (verify_chapa_transaction reference) _ w w1
             (chapa_verify (oracle w) reference)) by reflexivity.
  rewrite (bind_inl (try (Payment_objects_get reference)) _ w1 w1
             (inr DoesNotExist)); [reflexivity|].
  apply try_eq. now apply Payment_objects_get_absent.
Qed.

(** C1: when the gateway answers "success" for the reference of a payment
    linked to booking [B], the payment is saved completed with [paid_at]
    the clock reading, [B] is saved confirmed with [payment_status]
    completed and [paid_at] the (next) clock reading, and exactly one
    confirmation-email job, addressed to the guest, is put on the queue. *)
Theorem verify_payment_success (w : World) (pid bid : Z) (p : Payment) (B : Booking) :
  sole_payment w pid p ->
  p_booking p = Some bid ->
  bookings w !! bid = Some B ->
  data_status (chapa_verify (oracle w) (p_reference p)) = Some "success"%string ->
  ∃ w' resp p' B' job,
    verify_payment (p_reference p) w = (w', inl resp) ∧
    status_code resp = 200 ∧
    payments w' = <[pid := p']> (payments w) ∧
    p_status p' = "completed"%string ∧
    p_paid_at p' = Some (now_at (oracle w) (ticks w)) ∧
    bookings w' = <[bid := B']> (bookings w) ∧
    B' = booking_paid (now_at (oracle w) (S (ticks w))) B ∧
    status B' = "confirmed"%string ∧
    payment_status B' = Some "completed"%string ∧
    paid_at B' = Some (now_at (oracle w) (S (ticks w))) ∧
    queue w' = queue w ++ [job] ∧
    task job = CONFIRMATION ∧
    user_email job = email (guest B) ∧
    dict_get (booking_data job) "booking_id" VNone = VInt bid.
Proof.
  intros Hsole Hlink HB Hgw.
  set (resp := chapa_verify (oracle w) (p_reference p)) in *.
  set (w1 := set_gateway_calls (gateway_calls w ++ [p_reference p]) w).
  set (p' := payment_verified "completed"
               (Some (now_at (oracle w) (ticks w))) resp p).
  set (B' := booking_paid (now_at (oracle w) (S (ticks w))) B).
  eexists _, _, p', B', _.
  split.
  { unfold verify_payment.
    rewrite (bind_inl (verify_chapa_transaction (p_reference p)) _ w w1 resp)
      by reflexivity.
    rewrite (bind_inl (try (Payment_objects_get (p_reference p))) _ w1 w1
               (inl (pid, p))).
    2:{ apply try_eq. now apply (Payment_objects_get_sole w1). }
    rewrite Hgw.
    run_view. rewrite Hlink. run_view. rewrite HB. run_view.
    rewrite Hlink. reflexivity. }
  cbn. repeat split; reflexivity.
Qed.

(** C2: when the gateway answers any status other than "success" for the
    reference of a payment linked to booking [B], the payment is saved
    failed and [B] is saved with [payment_status] failed; [B]'s status and
    every other field keep their values, no other row changes and no job
    is enqueued. *)
Theorem verify_payment_failure (w : World) (pid bid : Z) (p : Payment)
    (B : Booking) (st : string) :
  sole_payment w pid p ->
  p_booking p = Some bid ->
  bookings w !! bid = Some B ->
  data_status (chapa_verify (oracle w) (p_reference p)) = Some st ->
  st ≠ "success"%string ->
  ∃ w' resp p' B',
    verify_payment (p_reference p) w = (w', inl resp) ∧
    payments w' = <[pid := p']> (payments w) ∧
    p_status p' = "failed"%string ∧
    bookings w' = <[bid := B']> (bookings w) ∧
    B' = set_payment_status (Some "failed"%string) B ∧
    payment_status B' = Some "failed"%string ∧
    status B' = status B ∧
    (listing B', guest B', check_in B', check_out B', guests B', total_price B')
      = (listing B, guest B, check_in B, check_out B, guests B, total_price B) ∧
    (confirmation_number B', created_at B', updated_at B',
     confirmed_at B', cancelled_at B', paid_at B')
      = (confirmation_number B, created_at B, updated_at B,
         confirmed_at B, cancelled_at B, paid_at B) ∧
    queue w' = queue w.
Proof.
  intros Hsole Hlink HB Hgw Hst.
  set (resp := chapa_verify (oracle w) (p_reference p)) in *.
  set (w1 := set_gateway_calls (gateway_calls w ++ [p_reference p]) w).
  eexists _, _, (payment_verified "failed" (p_paid_at p) resp p),
    (set_payment_status (Some "failed"%string) B).
  split.
  { unfold verify_payment.
    rewrite (bind_inl (verify_chapa_transaction (p_reference p)) _ w w1 resp)
      by reflexivity.
    rewrite (bind_inl (try (Payment_objects_get (p_reference p))) _ w1 w1
               (inl (pid, p))).
    2:{ apply try_eq. now apply (Payment_objects_get_sole w1). }
    rewrite Hgw.
    apply String.eqb_neq in Hst.
    run_view. rewrite Hst. run_view. rewrite Hlink. run_view. rewrite HB.
    run_view. rewrite Hlink. reflexivity. }
  cbn. repeat split; reflexivity.
Qed.

Lemma sole_payment_sample st answer :
  sole_payment (Sample.world st answer) 7 Sample.charge.
Proof.
  split; [reflexivity|].
  intros pid' p' Hp' _. cbn in Hp'.
  now apply lookup_singleton_Some in Hp' as [<- _].
Qed.

Lemma verify_payment_success_witness :
  ∃ w', (verify_payment "ref-1" (Sample.world "pending" "success")).1 = w' ∧
        status <$> bookings w' !! 5 = Some "confirmed"%string ∧
        length (queue w') = 1%nat.
Proof.
  destruct (verify_payment_success (Sample.world "pending" "success") 7 5
              Sample.charge (Sample.stay "pending"))
    as (w' & resp & p' & B' & job & Hrun & _ & _ & _ & _ & Hb & _ & Hst & _ & _ & Hq & _).
  - apply sole_payment_sample.
  - reflexivity.
  - reflexivity.
  - reflexivity.
  - exists w'. split; [cbn in Hrun; now rewrite Hrun|]. split.
    + rewrite Hb, lookup_insert_eq. cbn. now rewrite Hst.
    + now rewrite Hq.
Defined.

Lemma verify_payment_failure_witness :
  ∃ w', (verify_payment "ref-1" (Sample.world "pending" "declined")).1 = w' ∧
        bookings w' !! 5
          = Some (set_payment_status (Some "failed"%string) (Sample.stay "pending")).
Proof.
  destruct (verify_payment_failure (Sample.world "pending" "declined") 7 5
              Sample.charge (Sample.stay "pending") "declined")
    as (w' & resp & p' & B' & Hrun & _ & _ & Hb & HB' & _).
  - apply sole_payment_sample.
  - reflexivity.
  - reflexivity.
  - reflexivity.
  - discriminate.
  - exists w'. split; [cbn in Hrun; now rewrite Hrun|].
    now rewrite Hb, lookup_insert_eq, HB'.
Defined.

Lemma verify_payment_unknown_reference_witness :
  ∃ w', verify_payment "ref-2" (Sample.world "pending" "success")
          = (w', inl payment_not_found) ∧
        gateway_calls w' = ["ref-2"%string].
Proof.
  destruct (verify_payment_unknown_reference (Sample.world "pending" "success") "ref-2")
    as (w' & Hrun & Hcalls & _).
  - intros pid p Hp. cbn in Hp.
    apply lookup_singleton_Some in Hp as [_ <-]. discriminate.
  - exists w'. split; [exact Hrun|exact Hcalls].
Defined.

(** C9, as stated, fails: at a reference that no Payment row carries the
    gateway's verify operation has been invoked by the time the lookup
    answers "not found". *)
Lemma verify_payment_unknown_reference_calls_gateway :
  ¬ (∀ w reference,
       no_payment w reference ->
       gateway_calls (verify_payment reference w).1 = gateway_calls w).
Proof.
  intros H.
  specialize (H (set_payments ∅ (Sample.world "pending" "success")) "ref-1"%string).
  discriminate H.
  intros pid p Hp. cbn in Hp. now rewrite lookup_empty in Hp.
Qed.

(** ** [perform_create] *)

Lemma upper_hex_digit_alnum d : upper_alnum (upper_ascii (hex_digit d)) = true.
Proof.
  unfold hex_digit.
  repeat (match goal with
          | |- context [match ?x with _ => _ end] => destruct x
          end; try reflexivity).
Qed.

(** [str(uuid.uuid4())[:8].upper()] is 8 characters long, each of them a
    digit or an upper-case letter. *)
Lemma generated_number_shape u :
  let s := upper (slice 0 8 (uuid_str u)) in
  String.length s = 8%nat ∧ string_forallb upper_alnum s = true.
Proof.
  unfold uuid_str, slice.
  cbv -[hex_digit N.div N.modulo N.pow N.of_nat upper_alnum upper_ascii andb].
  split; [reflexivity|].
  now rewrite !upper_hex_digit_alnum.
Qed.

Lemma fresh_key_unused {A : Type} (m : gmap Z A) : m !! fresh (dom m) = None.
Proof. apply not_elem_of_dom, is_fresh. Qed.

Ltac run_create :=
  repeat (progress (
    unfold perform_create, serializer_save, initialize_payment,
      Payment_objects_create, try;
    run_view)).

(** C3: creating a booking persists it under a new key with status
    pending; when the request brings no confirmation number the booking
    gets one of 8 upper-case alphanumeric characters; exactly one
    confirmation-email job is enqueued, and the context the task builds
    from it carries the booking's confirmation number; a new Payment row,
    with status "pending" and linked to the booking, is created if and
    only if [total_price > 0]. *)
Theorem perform_create_effects (w : World) (user : User) (data : CreateBookingData) :
  let bid := fresh (dom (bookings w)) in
  ∃ w' B number job,
    perform_create user data w = (w', inl tt) ∧
    bookings w !! bid = None ∧
    bookings w' = <[bid := B]> (bookings w) ∧
    status B = "pending"%string ∧
    confirmation_number B = Some number ∧
    (truthy_str (cb_confirmation_number data) = true ->
       cb_confirmation_number data = Some number) ∧
    (truthy_str (cb_confirmation_number data) = false ->
       String.length number = 8%nat ∧ string_forallb upper_alnum number = true) ∧
    queue w' = queue w ++ [job] ∧
    task job = CONFIRMATION ∧
    user_email job = email user ∧
    (∀ now, ctx_confirmation_number
              (confirmation_context (booking_data job) (user_email job) now)
            = VStr number) ∧
    ((∃ pid p, payments w !! pid = None ∧ payments w' !! pid = Some p ∧
               p_status p = "pending"%string ∧ p_booking p = Some bid)
     ↔ 0 < cb_total_price data) ∧
    (0 < cb_total_price data ->
       ∃ pid p, payments w !! pid = None ∧
                payments w' = <[pid := p]> (payments w) ∧
                p_status p = "pending"%string ∧ p_booking p = Some bid) ∧
    (¬ 0 < cb_total_price data -> payments w' = payments w).
Proof.
  intros bid.
  assert (Hfresh : bookings w !! bid = None) by apply fresh_key_unused.
  assert (Hpay : payments w !! fresh (dom (payments w)) = None)
    by apply fresh_key_unused.
  destruct (truthy_str (cb_confirmation_number data)) eqn:Hnum;
    destruct (0 <? cb_total_price data) eqn:Hprice;
    [pose proof (proj1 (Z.ltb_lt _ _) Hprice) | pose proof (proj1 (Z.ltb_ge _ _) Hprice)
    |pose proof (proj1 (Z.ltb_lt _ _) Hprice) | pose proof (proj1 (Z.ltb_ge _ _) Hprice)].
  all: try (destruct (cb_confirmation_number data) as [number|] eqn:Hcn;
            [|discriminate Hnum]).
  all: eexists _, _, _, _.
  all: split; [run_create; rewrite ?Hcn, ?Hnum; run_create; rewrite ?Hprice;
               run_create; reflexivity|].
  all: cbn -[lookup insert fresh dom].
  all: rewrite ?insert_insert_eq.
  all: repeat match goal with
       | |- _ ∧ _ => split
       | |- _ ↔ _ => split
       end.
  all: try reflexivity; try assumption; try discriminate; try lia.
  all: try (intros _; apply generated_number_shape).
  all: try (intros (pid & p & Hold & Hnew & _); congruence).
  all: intros _; eexists _, _; (split; [exact Hpay|]).
  all: split; [first [apply lookup_insert_eq | reflexivity] | split; reflexivity].
Qed.

Lemma perform_create_effects_witness :
  ∃ w' B,
    perform_create Sample.alice (Sample.request 75000)
      (Sample.world "cancelled" "success") = (w', inl tt) ∧
    bookings w' !! 6 = Some B ∧
    status B = "pending"%string ∧
    size (payments w') = 2%nat.
Proof.
  destruct (perform_create_effects (Sample.world "cancelled" "success")
              Sample.alice (Sample.request 75000))
    as (w' & B & number & job & Hrun & _ & Hb & Hst & _ & _ & _ & _ & _ & _
        & _ & _ & Hpay & _).
  exists w', B. split; [exact Hrun|]. split.
  - rewrite Hb. apply lookup_insert_eq.
  - split; [exact Hst|].
    destruct Hpay as (pid & p & Hfree & -> & _); [reflexivity|].
    now rewrite map_size_insert_None.
Defined.

(** The booking row [perform_create] leaves for a request that brings its
    own confirmation number or none. *)
Lemma perform_create_persists (w : World) (user : User) (data : CreateBookingData) :
  ∃ w' B,
    perform_create user data w = (w', inl tt) ∧
    bookings w' = <[fresh (dom (bookings w)) := B]> (bookings w) ∧
    (listing B, check_in B, check_out B) =
      (cb_listing data, cb_check_in data, cb_check_out data).
Proof.
  destruct (truthy_str (cb_confirmation_number data)) eqn:Hnum;
    destruct (0 <? cb_total_price data) eqn:Hprice.
  all: eexists _, _.
  all: split; [run_create; rewrite ?Hnum; run_create; rewrite ?Hprice;
               run_create; reflexivity|].
  all: cbn -[lookup insert fresh dom].
  all: rewrite ?insert_insert_eq.
  all: split; reflexivity.
Qed.

(** [perform_create] makes no overlap test of its own: handed validated
    data whose window a confirmed or active booking of the same listing
    overlaps, it ends without an error and persists the new row under a
    key that was free.  What refuses such a request is the validation
    that runs before it. *)
Lemma perform_create_ignores_overlap (w : World) (user : User)
    (data : CreateBookingData) :
  conflicting w data ->
  ∃ w' B,
    perform_create user data w = (w', inl tt) ∧
    bookings w !! fresh (dom (bookings w)) = None ∧
    bookings w' !! fresh (dom (bookings w)) = Some B ∧
    (listing B, check_in B, check_out B) =
      (cb_listing data, cb_check_in data, cb_check_out data) ∧
    size (bookings w') = S (size (bookings w)).
Proof.
  intros _.
  destruct (perform_create_persists w user data) as (w' & B & Hrun & Hb & HB).
  exists w', B. split; [exact Hrun|]. split; [apply fresh_key_unused|].
  rewrite Hb. split; [apply lookup_insert_eq|]. split; [exact HB|].
  apply map_size_insert_None, fresh_key_unused.
Qed.

Lemma conflicting_sample :
  conflicting (Sample.world "confirmed" "success") (Sample.request 75000).
Proof.
  exists 5, (Sample.stay "confirmed").
  split; [reflexivity|]. split; [reflexivity|].
  split; [apply list_elem_of_here|]. cbn. unfold Sample.dec25, Sample.dec30. lia.
Qed.

(** The rows the validation looks for are the bookings that make the
    request conflicting. *)
Lemma conflicting_overlapping (w : World) (data : CreateBookingData) :
  conflicting w data ↔
  ∃ pk b, filter (overlapping data) (bookings w) !! pk = Some b.
Proof.
  unfold conflicting, overlapped. split.
  - intros (pk & b & Hb & Hl & Hst & Hci & Hco). exists pk, b.
    apply map_lookup_filter_Some. split; [exact Hb|].
    split; [exact Hl|]. unfold blocks. cbn.
    split; [exact Hci|]. split; [lia|exact Hst].
  - intros (pk & b & Hb). apply map_lookup_filter_Some in Hb
      as (Hb & Hl & Hci & Hco & Hst).
    exists pk, b. cbn in Hl, Hci, Hco, Hst.
    split; [exact Hb|]. split; [exact Hl|]. split; [exact Hst|].
    split; [exact Hci|lia].
Qed.


Lemma is_valid_free (w : World) (data : CreateBookingData) :
  ¬ conflicting w data -> is_valid data w = (w, inl tt).
Proof.
  intros Hfree. unfold is_valid.
  rewrite (bind_inl get_world _ w w w) by reflexivity.
  destruct (map_to_list (filter (overlapping data) (bookings w)))
    as [|[pk b] rows] eqn:Hrows; [reflexivity|].
  destruct Hfree. apply conflicting_overlapping. exists pk, b.
  apply elem_of_map_to_list. rewrite Hrows. apply list_elem_of_here.
Qed.



(** A request that no such booking overlaps passes the validation and is
    handled by [perform_create]. *)
Lemma create_without_conflict (w : World) (user : User)
    (data : CreateBookingData) :
  ¬ conflicting w data ->
  create user data w =
    (perform_create user data;; mret HTTP_201_CREATED) w.
Proof.
  intros Hfree. unfold create.
  change (is_valid data;; perform_create user data;; mret HTTP_201_CREATED)
    with (is_valid data ≫= λ _, perform_create user data;; mret HTTP_201_CREATED).
  now rewrite (bind_inl _ _ _ _ _ (is_valid_free w data Hfree)).
Qed.

(** The same request after the overlapping booking was cancelled: it is
    accepted and the table holds two rows. *)
Example create_after_cancellation :
  (create Sample.bob (Sample.request 75000)
     (Sample.world "cancelled" "success")).2 = inl 201 ∧
  size (bookings (create Sample.bob (Sample.request 75000)
                    (Sample.world "cancelled" "success")).1) = 2%nat.
Proof. split; vm_compute; reflexivity. Qed.

(** ** Listing search *)

Lemma unavailable_listings_spec (w : World) (ci co : Date) (lid : Z) :
  lid ∈ unavailable_listings w ci co ↔ overlapped w lid ci co.
Proof.
  unfold unavailable_listings, overlapped. rewrite list_elem_of_fmap. split.
  - intros ([pk b] & -> & Hin).
    apply elem_of_map_to_list, map_lookup_filter_Some in Hin
      as [Hb (Hci & Hco & Hst)].
    exists pk, b. cbn in *. repeat split; [assumption.. | lia].
  - intros (pk & b & Hb & <- & Hst & Hci & Hco).
    exists (pk, b). split; [reflexivity|].
    apply elem_of_map_to_list, map_lookup_filter_Some.
    split; [assumption|]. unfold blocks. cbn. repeat split; [lia.. | assumption].
Qed.

Lemma exclude_id_in_spec (ids : list Z) (queryset : list Listing) (L : Listing) :
  L ∈ exclude_id_in ids queryset ↔ L ∈ queryset ∧ listing_id L ∉ ids.
Proof. unfold exclude_id_in. rewrite list_elem_of_filter. tauto. Qed.

Lemma amenities_filter_exclude data ids queryset (L : Listing) :
  L ∈ amenities_filter data (exclude_id_in ids queryset)
  ↔ L ∈ amenities_filter data queryset ∧ listing_id L ∉ ids.
Proof.
  unfold amenities_filter.
  destruct (s_amenities data) as [[|a rest]|];
    rewrite ?list_elem_of_filter, exclude_id_in_spec; tauto.
Qed.

(** C5: with a requested window [[ci, co)], a listing that meets the
    search's other criteria is left out of the results exactly when some
    confirmed or active booking of it has [check_in < co] and
    [check_out > ci]; [search] (validated dates) and [get_queryset]
    (query-string dates) apply the same test. *)
Theorem search_excludes_overlapped (parse_date : string -> option Date)
    (w : World) (L : Listing) (ci co : Date) :
  (∀ data,
     s_check_in data = Some ci -> s_check_out data = Some co ->
     L ∈ amenities_filter data (criteria_filters data (active_listings w)) ->
     ∃ results,
       search (inl data) w
         = (w, inl {| body := ListingData results; status_code := 200 |}) ∧
       (L ∉ results ↔ overlapped w (listing_id L) ci co)) ∧
  (∀ check_in check_out,
     truthy_str check_in = true -> truthy_str check_out = true ->
     check_in ≫= parse_date = Some ci -> check_out ≫= parse_date = Some co ->
     L ∈ active_listings w ->
     ∃ results,
       ListingViewSet_get_queryset parse_date check_in check_out w
         = (w, inl results) ∧
       (L ∉ results ↔ overlapped w (listing_id L) ci co)).
Proof.
  split.
  - intros data Hci Hco HL. eexists. split.
    + unfold search. run_view. rewrite Hci, Hco. reflexivity.
    + cbn. rewrite amenities_filter_exclude, <- unavailable_listings_spec.
      destruct (decide (listing_id L ∈ unavailable_listings w ci co)); tauto.
  - intros check_in check_out Hin Hout Hci Hco HL. eexists. split.
    + unfold ListingViewSet_get_queryset.
      rewrite Hin, Hout, Hci, Hco. reflexivity.
    + rewrite exclude_id_in_spec, <- unavailable_listings_spec.
      destruct (decide (listing_id L ∈ unavailable_listings w ci co)); tauto.
Qed.

Lemma overlapped_sample :
  overlapped (Sample.world "confirmed" "success") (listing_id Sample.villa)
    (Sample.dec25 + 1) (Sample.dec30 - 1).
Proof. exact conflicting_sample. Qed.

Lemma search_excludes_overlapped_witness :
  (∃ results,
     search (inl SampleSearch.data) (Sample.world "confirmed" "success")
       = (Sample.world "confirmed" "success",
          inl {| body := ListingData results; status_code := 200 |}) ∧
     Sample.villa ∉ results) ∧
  (∃ results,
     ListingViewSet_get_queryset SampleSearch.parse_date
       (Some "2024-12-26"%string) (Some "2024-12-29"%string)
       (Sample.world "confirmed" "success")
       = (Sample.world "confirmed" "success", inl results) ∧
     Sample.villa ∉ results).
Proof.
  destruct (search_excludes_overlapped SampleSearch.parse_date
              (Sample.world "confirmed" "success") Sample.villa
              (Sample.dec25 + 1) (Sample.dec30 - 1)) as [Hsearch Hquery].
  split.
  - destruct (Hsearch SampleSearch.data eq_refl eq_refl)
      as (results & Hrun & Hiff).
    + vm_compute. apply list_elem_of_here.
    + exists results. split; [exact Hrun|]. apply Hiff, overlapped_sample.
  - destruct (Hquery (Some "2024-12-26"%string) (Some "2024-12-29"%string)
                eq_refl eq_refl eq_refl eq_refl)
      as (results & Hrun & Hiff).
    + vm_compute. apply list_elem_of_here.
    + exists results. split; [exact Hrun|]. apply Hiff, overlapped_sample.
Defined.

(** ** [cancel] and [confirm] *)

(** [get_object] finds a booking for staff and for the booking's guest. *)
Lemma get_object_visible (w : World) (actor : User) (pk : Z) (b : Booking) :
  bookings w !! pk = Some b ->
  may_cancel actor b ->
  get_object actor pk w = (w, inl (pk, b)).
Proof.
  intros Hb Hmay. unfold get_object, BookingViewSet_get_queryset.
  destruct (is_staff actor) eqn:Hstaff.
  - run_view. now rewrite Hb.
  - destruct Hmay as [Hguest|Hs]; [|congruence].
    run_view.
    now rewrite (map_lookup_filter_Some_2 _ (bookings w) pk b Hb Hguest).
Qed.

(** [get_object] answers 404 to a user who is neither staff nor the
    booking's guest. *)
Lemma get_object_hidden (w : World) (actor : User) (pk : Z) (b : Booking) :
  bookings w !! pk = Some b ->
  is_staff actor = false ->
  user_id (guest b) ≠ user_id actor ->
  get_object actor pk w = (w, inr Http404).
Proof.
  intros Hb Hstaff Hguest. unfold get_object, BookingViewSet_get_queryset.
  rewrite Hstaff. run_view.
  replace (filter _ (bookings w) !! pk) with (@None Booking); [reflexivity|].
  symmetry. apply map_lookup_filter_None. right.
  intros b' Hb'. cbn. congruence.
Qed.

(** C6: a cancel request on a booking whose status is cancelled, made by
    an actor permitted to cancel it (its guest, or staff), is answered 400
    "This booking cannot be cancelled."; the tables, the job queue and the
    rest of the world are left as they were. *)
Theorem cancel_cancelled_rejected (w : World) (actor : User) (pk : Z) (b : Booking) :
  bookings w !! pk = Some b ->
  status b = "cancelled"%string ->
  may_cancel actor b ->
  cancel actor pk w = (w, inl cannot_be_cancelled).
Proof.
  intros Hb Hst Hmay. unfold cancel.
  rewrite (bind_inl _ _ w w (pk, b) (get_object_visible w actor pk b Hb Hmay)).
  assert (Hperm : negb (user_eqb (guest b) actor) && negb (is_staff actor) = false).
  { destruct Hmay as [Hguest | ->]; [|apply andb_false_r].
    unfold user_eqb. rewrite Hguest, Z.eqb_refl. reflexivity. }
  rewrite Hperm. unfold can_be_cancelled. rewrite Hst. reflexivity.
Qed.

Lemma cancel_cancelled_rejected_witness :
  cancel Sample.alice 5 (Sample.world "cancelled" "success")
    = (Sample.world "cancelled" "success", inl cannot_be_cancelled) ∧
  cancel Sample.carol 5 (Sample.world "cancelled" "success")
    = (Sample.world "cancelled" "success", inl cannot_be_cancelled).
Proof.
  split.
  - apply (cancel_cancelled_rejected _ Sample.alice 5 (Sample.stay "cancelled"));
      [reflexivity | reflexivity | left; reflexivity].
  - apply (cancel_cancelled_rejected _ Sample.carol 5 (Sample.stay "cancelled"));
      [reflexivity | reflexivity | right; reflexivity].
Defined.

(** X27: a confirm request by staff succeeds whatever the booking's status:
    the booking is saved confirmed with [confirmed_at] the clock reading
    and one confirmation-email job for the guest is enqueued. *)
Lemma confirm_by_staff (w : World) (actor : User) (pk : Z) (b : Booking) :
  bookings w !! pk = Some b ->
  is_staff actor = true ->
  let b' := set_confirmed_at (Some (now_at (oracle w) (ticks w)))
              (set_status "confirmed" b) in
  ∃ w',
    confirm actor pk w = (w', inl {| body := BookingData pk b'; status_code := 200 |}) ∧
    bookings w' = <[pk := b']> (bookings w) ∧
    queue w' = queue w ++ [{| task := CONFIRMATION;
                              booking_data := confirmed_booking_data pk b';
                              user_email := email (guest b) |}].
Proof.
  intros Hb Hstaff b'. eexists. split.
  - unfold confirm.
    rewrite (bind_inl _ _ w w (pk, b)
               (get_object_visible w actor pk b Hb (or_intror Hstaff))).
    rewrite Hstaff. run_view. reflexivity.
  - split; reflexivity.
Qed.

(** C10 on the code: Bob hosts the villa and is neither staff nor the
    guest of booking 5; his confirm request is answered 404 by
    [get_object], because [get_queryset] shows a non-staff user only the
    bookings they made as a guest.  The booking is not confirmed and no
    job is enqueued. *)
Theorem confirm_by_host_not_found :
  user_eqb (host (listing (Sample.stay "pending"))) Sample.bob = true ∧
  confirm Sample.bob 5 (Sample.world "pending" "success")
    = (Sample.world "pending" "success", inr Http404).
Proof.
  split; [reflexivity|].
  unfold confirm.
  now rewrite (bind_inr _ _ _ _ Http404
                 (get_object_hidden (Sample.world "pending" "success")
                    Sample.bob 5 (Sample.stay "pending") eq_refl eq_refl
                    ltac:(discriminate))).
Qed.

(** ** The tasks *)

(** An execution that cannot get the message out logs the error and
    calls [self.retry] with a countdown of 300 seconds. *)
Lemma failed_execution (mail : Celery.Mail) (n : nat) (data : dict)
    (user_email : string) :
  (∀ n message, Celery.delivered mail n message = false) ->
  Celery.send_booking_confirmation_email mail n data user_email
    = ([Celery.Error "Failed to send booking confirmation email"],
       Celery.retry Celery.max_retries n 300).
Proof.
  intros Hfail. unfold Celery.send_booking_confirmation_email.
  now rewrite Hfail.
Qed.

(** C7: when rendering or sending fails on every execution, the worker
    runs the confirmation task four times: each of the first three
    failures re-sends the task with a countdown of 300 seconds, the
    fourth is not retried; the job ends in state FAILURE and every
    execution has left one error line in the log and nothing else.  More
    fuel changes nothing: the run has stopped. *)
Theorem confirmation_email_retries (fuel : nat) (mail : Celery.Mail)
    (data : dict) (user_email : string) :
  (∀ n message, Celery.delivered mail n message = false) ->
  (4 <= fuel)%nat ->
  let run := Celery.worker fuel mail 0 data user_email in
  Celery.executions run = 4%nat ∧
  Celery.countdowns run = [300; 300; 300] ∧
  Celery.state run = Celery.FAILURE ∧
  Celery.log run
    = replicate 4 (Celery.Error "Failed to send booking confirmation email").
Proof.
  intros Hfail Hfuel.
  do 4 (destruct fuel as [|fuel]; [lia|]).
  cbn [Celery.worker]. rewrite !(failed_execution mail _ data user_email Hfail).
  cbn. repeat split; reflexivity.
Qed.

Lemma confirmation_email_retries_witness :
  Celery.countdowns
    (Celery.worker 10 mail_down 0
       (created_booking_data 5 (Sample.stay "pending")) "alice@example.com")
    = [300; 300; 300] ∧
  Celery.state
    (Celery.worker 10 mail_down 0
       (created_booking_data 5 (Sample.stay "pending")) "alice@example.com")
    = Celery.FAILURE.
Proof.
  destruct (confirmation_email_retries 10 mail_down
              (created_booking_data 5 (Sample.stay "pending")) "alice@example.com")
    as (_ & Hc & Hs & _).
  - reflexivity.
  - lia.
  - split; [exact Hc | exact Hs].
Defined.

(** The rows a filter keeps and the rows it drops make up the table. *)
Lemma map_size_filter_split {A : Type} (P : Z * A -> Prop)
    `{!∀ kv, Decision (P kv)} (m : gmap Z A) :
  size m = (size (filter P m) + size (filter (λ kv, ¬ P kv) m))%nat.
Proof.
  rewrite <- map_size_disj_union by apply map_disjoint_filter_complement.
  now rewrite map_filter_union_complement.
Qed.

Lemma length_append (s t : string) :
  String.length (s +:+ t) = (String.length s + String.length t)%nat.
Proof.
  induction s as [|a s IH]; [reflexivity|].
  change (String a s +:+ t) with (String a (s +:+ t)).
  cbn [String.length]. now rewrite IH.
Qed.

Lemma append_inj_r (s1 s2 t : string) : s1 +:+ t = s2 +:+ t -> s1 = s2.
Proof.
  revert s2. induction s1 as [|a s1 IH]; intros [|b s2] H.
  - reflexivity.
  - apply (f_equal String.length) in H.
    rewrite !length_append in H. cbn [String.length] in H. lia.
  - apply (f_equal String.length) in H.
    rewrite !length_append in H. cbn [String.length] in H. lia.
  - change (String a (s1 +:+ t) = String b (s2 +:+ t)) in H.
    injection H as -> H. f_equal. now apply IH.
Qed.

(** The message names one count only. *)
Lemma cleaned_up_inj (n m : nat) : cleaned_up n = cleaned_up m -> n = m.
Proof.
  unfold cleaned_up. intros H.
  apply (inj (String.app "Cleaned up ")) in H.
  apply append_inj_r in H. now apply (inj pretty).
Qed.

(** What [delete()] leaves of the bookings, whenever it does not refuse. *)
Lemma QuerySet_delete_run (on_delete : OnDelete) (P : Z * Booking -> Prop)
    `{!∀ kv, Decision (P kv)} (w : World) :
  (on_delete = PROTECT ->
   ∀ k p, payments w !! k = Some p -> ¬ points_into (filter P (bookings w)) p) ->
  ∃ w',
    QuerySet_delete on_delete P w = (w', inl tt) ∧
    bookings w' = filter (λ kv, ¬ P kv) (bookings w) ∧
    (∀ k p, payments w !! k = Some p ->
            ¬ points_into (filter P (bookings w)) p ->
            payments w' !! k = Some p) ∧
    queue w' = queue w ∧ ticks w' = ticks w ∧ oracle w' = oracle w.
Proof.
  intros Hfree. unfold QuerySet_delete.
  rewrite (bind_inl get_world _ w w w) by reflexivity.
  destruct on_delete.
  - eexists. split; [reflexivity|]. cbn -[filter lookup].
    split; [reflexivity|]. split; [|repeat split].
    intros k p Hk Hp. apply map_lookup_filter_Some. now split.
  - eexists. split; [reflexivity|]. cbn -[filter lookup fmap].
    split; [reflexivity|]. split; [|repeat split].
    intros k p Hk Hp. rewrite lookup_fmap, Hk. cbn.
    now destruct (decide (points_into (filter P (bookings w)) p)).
  - destruct (map_to_list
        (filter (λ kv, points_into (filter P (bookings w)) kv.2) (payments w)))
      as [|[k p] rows] eqn:Hrows.
    + eexists. split; [reflexivity|]. cbn -[filter lookup].
      split; [reflexivity|]. split; [|repeat split].
      intros k p Hk _. exact Hk.
    + assert (Hin : (k, p) ∈ map_to_list
        (filter (λ kv, points_into (filter P (bookings w)) kv.2) (payments w)))
        by (rewrite Hrows; apply list_elem_of_here).
      apply elem_of_map_to_list, map_lookup_filter_Some in Hin as [Hk Hp].
      destruct (Hfree eq_refl k p Hk Hp).
Qed.

(** C8, as the code has it: [cleanup_old_bookings] reads the clock once,
    deletes exactly the bookings that are cancelled and were last updated
    before the cutoff (now - 30 days), keeps every other booking as it
    is, and returns the sentence "Cleaned up <count> old cancelled
    bookings", whose count is the number of bookings deleted and is the
    only count the sentence names.  Payments that point at no deleted
    booking are kept as they are and nothing is enqueued.  Where payments
    are protected against the deletion of their booking, this is for a
    table in which no payment points at a booking to delete. *)
Theorem cleanup_old_bookings_effects (on_delete : OnDelete) (w : World) :
  let cutoff_date := now_at (oracle w) (ticks w) - timedelta_days 30 in
  let purged (pk : Z) :=
    ∃ b, bookings w !! pk = Some b ∧
         status b = "cancelled"%string ∧ updated_at b < cutoff_date in
  (on_delete = PROTECT ->
   ∀ k p bid, payments w !! k = Some p -> p_booking p = Some bid ->
              ¬ purged bid) ->
  ∃ w' count,
    cleanup_old_bookings on_delete w =
      (w', inl (VStr ("Cleaned up " +:+ pretty count +:+
                      " old cancelled bookings"))) ∧
    (∀ n : nat,
       "Cleaned up " +:+ pretty n +:+ " old cancelled bookings" =
       "Cleaned up " +:+ pretty count +:+ " old cancelled bookings" ->
       n = count) ∧
    (∀ pk b, bookings w' !! pk = Some b ↔
             bookings w !! pk = Some b ∧
             ¬ (status b = "cancelled"%string ∧ updated_at b < cutoff_date)) ∧
    (∀ pk b, bookings w !! pk = Some b -> status b = "cancelled"%string ->
             updated_at b < cutoff_date -> bookings w' !! pk = None) ∧
    (∀ pk b, bookings w !! pk = Some b -> cutoff_date <= updated_at b ->
             bookings w' !! pk = Some b) ∧
    (∀ pk b, bookings w !! pk = Some b -> status b ≠ "cancelled"%string ->
             bookings w' !! pk = Some b) ∧
    size (bookings w) = (size (bookings w') + count)%nat ∧
    (∀ k p, payments w !! k = Some p ->
            (∀ bid, p_booking p = Some bid -> ¬ purged bid) ->
            payments w' !! k = Some p) ∧
    queue w' = queue w.
Proof.
  intros cutoff_date purged Hfree.
  set (w1 := set_ticks (S (ticks w)) w).
  assert (Hpoints : ∀ p,
    points_into (filter (old_cancelled cutoff_date) (bookings w)) p ->
    ∃ bid, p_booking p = Some bid ∧ purged bid).
  { intros p Hp. unfold points_into in Hp.
    destruct (p_booking p) as [bid|]; [|destruct Hp].
    destruct Hp as [b Hb]. apply map_lookup_filter_Some in Hb as [Hb [Hst Hold]].
    exists bid. split; [reflexivity|]. exists b. now repeat split. }
  destruct (QuerySet_delete_run on_delete (old_cancelled cutoff_date) w1)
    as (w' & Hrun & Hbookings & Hpayments & Hqueue & _).
  { intros Hprotect k p Hk Hp. destruct (Hpoints p Hp) as (bid & Hbid & Hgone).
    exact (Hfree Hprotect k p bid Hk Hbid Hgone). }
  exists w', (size (filter (old_cancelled cutoff_date) (bookings w))).
  assert (Hkept : ∀ pk b,
    bookings w' !! pk = Some b ↔
    bookings w !! pk = Some b ∧
    ¬ (status b = "cancelled"%string ∧ updated_at b < cutoff_date)).
  { intros pk b. rewrite Hbookings. apply map_lookup_filter_Some. }
  split.
  { unfold cleanup_old_bookings.
    erewrite (bind_inl (try _) _ w w'
                (inl (VStr (cleaned_up
                   (size (filter (old_cancelled cutoff_date) (bookings w)))))));
      [reflexivity|].
    apply try_eq.
    erewrite (bind_inl timezone_now _ w w1) by reflexivity. cbv beta zeta.
    erewrite (bind_inl get_world _ w1 w1 w1) by reflexivity.
    erewrite (bind_inl (QuerySet_delete _ _) _ w1 w' tt) by exact Hrun.
    reflexivity. }
  split.
  { intros n Hn. now apply (cleaned_up_inj n). }
  split; [exact Hkept|].
  split; [|split; [|split; [|split; [|split]]]].
  - intros pk b Hb Hst Hold. rewrite Hbookings.
    apply map_lookup_filter_None. right.
    intros b' Hb' Hnot. apply Hnot. unfold old_cancelled. cbn.
    replace b' with b by (cbn in Hb'; congruence). now split.
  - intros pk b Hb Hnew. apply Hkept. split; [exact Hb|].
    intros [_ Hold]. lia.
  - intros pk b Hb Hst. apply Hkept. split; [exact Hb|]. tauto.
  - rewrite Hbookings.
    rewrite (map_size_filter_split (old_cancelled cutoff_date) (bookings w)).
    apply Nat.add_comm.
  - intros k p Hk Hp. apply Hpayments; [exact Hk|].
    intros Hinto. destruct (Hpoints p Hinto) as (bid & Hbid & Hgone).
    exact (Hp bid Hbid Hgone).
  - exact Hqueue.
Qed.

Lemma cleanup_old_bookings_effects_witness :
  ∃ w',
    (cleanup_old_bookings PROTECT cleanup_world).1 = w' ∧
    bookings w' !! 1 = None ∧
    bookings w' !! 2 = Some (aged "cancelled" 29) ∧
    bookings w' !! 3 = Some (aged "confirmed" 40) ∧
    payments w' !! 7 = Some Sample.charge.
Proof.
  destruct (cleanup_old_bookings_effects PROTECT cleanup_world)
    as (w' & count & Hrun & _ & _ & Hold & Hrecent & Hother & _ & Hpaid & _).
  - intros _ k p bid Hk Hbid (b & Hb & _).
    change (payments cleanup_world)
      with ({[ 7 := Sample.charge ]} : gmap Z Payment) in Hk.
    apply lookup_singleton_Some in Hk as [_ <-].
    injection Hbid as <-. cbn in Hb. discriminate Hb.
  - exists w'. split; [now rewrite Hrun|]. split; [|split; [|split]].
    + apply (Hold 1 (aged "cancelled" 31)); reflexivity.
    + apply (Hrecent 2 (aged "cancelled" 29)); [reflexivity|].
      vm_compute. discriminate.
    + apply (Hother 3 (aged "confirmed" 40)); [reflexivity|discriminate].
    + apply (Hpaid 7 Sample.charge); [reflexivity|].
      intros bid Hbid (b & Hb & _). injection Hbid as <-.
      cbn in Hb. discriminate Hb.
Defined.

(** C8, as stated, fails: what the task returns is a sentence, not the
    number of deleted bookings.  In the cleanup sample one booking is
    deleted and the task returns the string that says so. *)
Lemma cleanup_old_bookings_returns_sentence :
  ¬ (∀ on_delete w, ∃ count : Z,
       (cleanup_old_bookings on_delete w).2 = inl (VInt count)).
Proof.
  intros H. destruct (H CASCADE cleanup_world) as [count Hcount].
  vm_compute in Hcount. discriminate Hcount.
Qed.

(** The spec's example: of two cancelled bookings, the one updated 31 days
    ago is deleted and the one updated 29 days ago is kept, as is a
    booking that is not cancelled. *)
Example cleanup_old_bookings_example :
  (cleanup_old_bookings CASCADE cleanup_world).2
    = inl (VStr "Cleaned up 1 old cancelled bookings") ∧
  bookings (cleanup_old_bookings CASCADE cleanup_world).1
    = <[2 := aged "cancelled" 29]> {[ 3 := aged "confirmed" 40 ]}.
Proof. split; vm_compute; reflexivity. Qed.

(** Where booking 1 has a payment, the three policies part: the payment
    goes with its booking, or stays without a booking, or the deletion
    is refused, the task answers with the error and every booking is
    still there.  The payment of booking 2 is kept in each case. *)
Example cleanup_old_bookings_with_payments :
  payments (cleanup_old_bookings CASCADE cleanup_world_paid).1
    = {[ 8 := set_p_booking (Some 2) Sample.charge ]} ∧
  payments (cleanup_old_bookings SET_NULL cleanup_world_paid).1
    = <[7 := set_p_booking None Sample.charge]>
        {[ 8 := set_p_booking (Some 2) Sample.charge ]} ∧
  (cleanup_old_bookings PROTECT cleanup_world_paid).2
    = inl (VStr ("Error: " +:+ exn_str ProtectedError)) ∧
  bookings (cleanup_old_bookings PROTECT cleanup_world_paid).1
    = bookings cleanup_world_paid.
Proof. repeat split; vm_compute; reflexivity. Qed.

(** A successful run of the task: one execution, nothing re-sent. *)
Example confirmation_email_delivered :
  let mail :=
    {| Celery.DEFAULT_FROM_EMAIL := "noreply@example.com";
       Celery.clock := λ _, Sample.t0;
       Celery.delivered := λ _ _, true |} in
  let run :=
    Celery.worker 10 mail 0 (created_booking_data 5 (Sample.stay "pending"))
      "alice@example.com" in
  Celery.executions run = 1%nat ∧ Celery.countdowns run = [] ∧
  Celery.state run = Celery.SUCCESS.
Proof. repeat split. Qed.

(** Mail that comes back after two failures: two retries, then success. *)
Example confirmation_email_recovers :
  let mail :=
    {| Celery.DEFAULT_FROM_EMAIL := "noreply@example.com";
       Celery.clock := λ _, Sample.t0;
       Celery.delivered := λ n _, (2 <=? n)%nat |} in
  let run :=
    Celery.worker 10 mail 0 (created_booking_data 5 (Sample.stay "pending"))
      "alice@example.com" in
  Celery.executions run = 3%nat ∧ Celery.countdowns run = [300; 300] ∧
  Celery.state run = Celery.SUCCESS.
Proof. repeat split. Qed.

(** The spec's end-to-end example: a booking of the villa for 750.00. *)
Example perform_create_example :
  let w := Sample.world "cancelled" "success" in
  let w' := (perform_create Sample.alice (Sample.request 75000) w).1 in
  confirmation_number <$> bookings w' !! 6 = Some (Some "9F8E7D6C"%string) ∧
  length (queue w') = 1%nat ∧
  p_status <$> payments w' !! 8 = Some "pending"%string ∧
  size (payments w') = 2%nat.
Proof. repeat split; vm_compute; reflexivity. Qed.

(** * More of the views and tasks *)

(** ** [verify_payment] on every input *)

(** The three ways [Payment.objects.get(reference=...)] can end. *)
Lemma Payment_objects_get_cases (w : World) (reference : string) :
  (Payment_objects_get reference w = (w, inr DoesNotExist) ∧
   no_payment w reference) ∨
  Payment_objects_get reference w = (w, inr MultipleObjectsReturned) ∨
  ∃ pid p, Payment_objects_get reference w = (w, inl (pid, p)) ∧
           payments w !! pid = Some p ∧ p_reference p = reference.
Proof.
  unfold Payment_objects_get.
  rewrite (bind_inl get_world _ w w w) by reflexivity.
  destruct (map_to_list (filter (λ kv, p_reference kv.2 = reference) (payments w)))
    as [|[pid p] [|second rest]] eqn:Hrows.
  - left. split; [reflexivity|].
    apply map_to_list_empty_iff in Hrows.
    intros pid p Hp Href.
    assert (Hin : filter (λ kv, p_reference kv.2 = reference) (payments w) !! pid
                  = Some p) by now apply map_lookup_filter_Some.
    rewrite Hrows, lookup_empty in Hin. discriminate.
  - right. right. exists pid, p. split; [reflexivity|].
    assert (Hin : (pid, p) ∈ map_to_list
              (filter (λ kv, p_reference kv.2 = reference) (payments w)))
      by (rewrite Hrows; apply list_elem_of_here).
    now apply elem_of_map_to_list, map_lookup_filter_Some in Hin.
  - right. left. reflexivity.
Qed.

(** X4: whatever the reference and whatever the gateway answers,
    [verify_payment] calls the gateway exactly once, creates and deletes
    no row of either table, leaves every payment that carries another
    reference as it is, and enqueues nothing or one confirmation job. *)
Theorem verify_payment_keeps_rows (w : World) (reference : string) :
  let w' := (verify_payment reference w).1 in
  gateway_calls w' = gateway_calls w ++ [reference] ∧
  dom (bookings w') = dom (bookings w) ∧
  dom (payments w') = dom (payments w) ∧
  (∀ pid p, payments w !! pid = Some p -> p_reference p ≠ reference ->
            payments w' !! pid = Some p) ∧
  (queue w' = queue w ∨
   ∃ job, queue w' = queue w ++ [job] ∧ task job = CONFIRMATION).
Proof.
  set (resp := chapa_verify (oracle w) reference).
  set (w1 := set_gateway_calls (gateway_calls w ++ [reference]) w).
  unfold verify_payment.
  rewrite (bind_inl (verify_chapa_transaction reference) _ w w1 resp)
    by reflexivity.
  destruct (Payment_objects_get_cases w1 reference)
    as [[Hget _] | [Hget | (pid & p & Hget & Hp & Href)]].
  - rewrite (bind_inl _ _ w1 w1 _ (try_eq _ _ _ _ Hget)). cbn.
    repeat split; auto.
  - rewrite (bind_inl _ _ w1 w1 _ (try_eq _ _ _ _ Hget)). cbn.
    repeat split; auto.
  - rewrite (bind_inl _ _ w1 w1 _ (try_eq _ _ _ _ Hget)).
    change (payments w1) with (payments w) in Hp.
    assert (Hother : ∀ p' pid' q, payments w !! pid' = Some q ->
              p_reference q ≠ reference ->
              <[pid := p']> (payments w) !! pid' = Some q).
    { intros p' pid' q Hq Hne. rewrite lookup_insert_ne; [exact Hq|].
      intros ->. rewrite Hp in Hq. congruence. }
    assert (Hdom : ∀ p', dom (<[pid := p']> (payments w)) = dom (payments w)).
    { intros p'. apply dom_insert_lookup_L. now exists p. }
    destruct (data_status resp) as [st|]; [|cbn; repeat split; auto].
    run_view.
    destruct (String.eqb st "success"); run_view;
      (destruct (p_booking p) as [bid|]; run_view;
       [destruct (bookings w !! bid) as [b|] eqn:Hb; run_view|]).
    all: repeat split; auto.
    all: try (apply dom_insert_lookup_L; now exists b).
    right. eexists. split; reflexivity.
Qed.

(** X1: verifying a payment that is linked to no booking only rewrites
    the payment: completed (with [paid_at]) on "success", failed on any
    other status; no booking row changes and no job is enqueued, also on
    success. *)
Theorem verify_payment_unlinked (w : World) (pid : Z) (p : Payment) (st : string) :
  sole_payment w pid p ->
  p_booking p = None ->
  data_status (chapa_verify (oracle w) (p_reference p)) = Some st ->
  ∃ w' resp p',
    verify_payment (p_reference p) w = (w', inl resp) ∧
    payments w' = <[pid := p']> (payments w) ∧
    (st = "success"%string ->
       p_status p' = "completed"%string ∧
       p_paid_at p' = Some (now_at (oracle w) (ticks w))) ∧
    (st ≠ "success"%string ->
       p_status p' = "failed"%string ∧ p_paid_at p' = p_paid_at p) ∧
    bookings w' = bookings w ∧
    queue w' = queue w.
Proof.
  intros Hsole Hlink Hgw.
  set (resp := chapa_verify (oracle w) (p_reference p)) in *.
  set (w1 := set_gateway_calls (gateway_calls w ++ [p_reference p]) w).
  assert (Hrun : ∀ k : ChapaResponse -> Z * Payment + Exn -> M Response,
    (verify_chapa_transaction (p_reference p) ≫= λ r,
       try (Payment_objects_get (p_reference p)) ≫= k r) w
    = k resp (inl (pid, p)) w1).
  { intros k.
    rewrite (bind_inl (verify_chapa_transaction (p_reference p)) _ w w1 resp)
      by reflexivity.
    apply bind_inl, try_eq. now apply (Payment_objects_get_sole w1). }
  unfold verify_payment. rewrite Hrun, Hgw.
  destruct (String.eqb st "success") eqn:Hst.
  - apply String.eqb_eq in Hst.
    eexists _, _, _. split.
    { run_view. rewrite (proj2 (String.eqb_eq _ _) Hst). run_view.
      rewrite Hlink. run_view. rewrite Hlink. reflexivity. }
    cbn. repeat split; try reflexivity; congruence.
  - eexists _, _, _. split.
    { run_view. rewrite Hst. run_view.
      rewrite Hlink. run_view. rewrite Hlink. reflexivity. }
    apply String.eqb_neq in Hst.
    cbn. repeat split; try reflexivity; congruence.
Qed.

Lemma verify_payment_unlinked_witness :
  let w := set_payments {[ 7 := set_p_status "pending" Sample.charge ]}
             (Sample.world "pending" "success") in
  let loose :=
    {| p_booking := None; p_amount := 1000; p_email := "dan@example.com";
       p_reference := "ref-9"; p_transaction_id := None; p_status := "pending";
       p_chapa_verification_response := None; p_paid_at := None |} in
  ∃ w', (verify_payment "ref-9" (set_payments {[ 9 := loose ]} w)).1 = w' ∧
        queue w' = [] ∧ bookings w' = bookings w.
Proof.
  intros w loose.
  destruct (verify_payment_unlinked (set_payments {[ 9 := loose ]} w) 9 loose
              "success") as (w' & resp & p' & Hrun & _ & _ & _ & Hb & Hq).
  - split; [reflexivity|]. intros pid' p'' Hp _. cbn in Hp.
    now apply lookup_singleton_Some in Hp as [<- _].
  - reflexivity.
  - reflexivity.
  - exists w'. split; [cbn in Hrun; now rewrite Hrun|]. split; [exact Hq|exact Hb].
Defined.

(** X2: when two payment rows carry the reference, the lookup raises
    [MultipleObjectsReturned], which [except Payment.DoesNotExist] does
    not catch: the view ends in that exception after its call to the
    gateway and nothing is written. *)
Theorem verify_payment_duplicate_reference (w : World) (reference : string)
    (pid1 pid2 : Z) (p1 p2 : Payment) :
  pid1 ≠ pid2 ->
  payments w !! pid1 = Some p1 -> p_reference p1 = reference ->
  payments w !! pid2 = Some p2 -> p_reference p2 = reference ->
  verify_payment reference w
    = (set_gateway_calls (gateway_calls w ++ [reference]) w,
       inr MultipleObjectsReturned).
Proof.
  intros Hne Hp1 Hr1 Hp2 Hr2.
  set (w1 := set_gateway_calls (gateway_calls w ++ [reference]) w).
  unfold verify_payment.
  rewrite (bind_inl (verify_chapa_transaction reference) _ w w1
             (chapa_verify (oracle w) reference)) by reflexivity.
  assert (Hget : Payment_objects_get reference w1
                 = (w1, inr MultipleObjectsReturned)).
  { unfold Payment_objects_get.
    rewrite (bind_inl get_world _ w1 w1 w1) by reflexivity.
    change (payments w1) with (payments w).
    assert (Hin : ∀ pid p, payments w !! pid = Some p -> p_reference p = reference ->
      (pid, p) ∈ map_to_list
        (filter (λ kv, p_reference kv.2 = reference) (payments w))).
    { intros pid p Hp Hr. now apply elem_of_map_to_list, map_lookup_filter_Some. }
    pose proof (Hin pid1 p1 Hp1 Hr1) as H1.
    pose proof (Hin pid2 p2 Hp2 Hr2) as H2.
    destruct (map_to_list (filter (λ kv, p_reference kv.2 = reference) (payments w)))
      as [|row [|second rest]]; [inversion H1| |reflexivity].
    apply list_elem_of_singleton in H1, H2. congruence. }
  now rewrite (bind_inl _ _ w1 w1 _ (try_eq _ _ _ _ Hget)).
Qed.

Lemma verify_payment_duplicate_reference_witness :
  let w := set_payments (<[ 8 := Sample.charge ]> {[ 7 := Sample.charge ]})
             (Sample.world "pending" "success") in
  verify_payment "ref-1" w
    = (set_gateway_calls ["ref-1"%string] w, inr MultipleObjectsReturned).
Proof.
  intros w.
  apply (verify_payment_duplicate_reference w "ref-1" 7 8
           Sample.charge Sample.charge);
    [discriminate | reflexivity..].
Defined.

(** X3: when the gateway's answer has no [data.status], the view raises
    [KeyError] after it has found the payment: the gateway has been
    called, and neither the payment nor its booking is written. *)
Theorem verify_payment_missing_status (w : World) (pid : Z) (p : Payment) :
  sole_payment w pid p ->
  data_status (chapa_verify (oracle w) (p_reference p)) = None ->
  verify_payment (p_reference p) w
    = (set_gateway_calls (gateway_calls w ++ [p_reference p]) w, inr KeyError).
Proof.
  intros Hsole Hgw.
  set (w1 := set_gateway_calls (gateway_calls w ++ [p_reference p]) w).
  unfold verify_payment.
  rewrite (bind_inl (verify_chapa_transaction (p_reference p)) _ w w1
             (chapa_verify (oracle w) (p_reference p))) by reflexivity.
  rewrite (bind_inl (try (Payment_objects_get (p_reference p))) _ w1 w1
             (inl (pid, p))).
  2:{ apply try_eq. now apply (Payment_objects_get_sole w1). }
  now rewrite Hgw.
Qed.

Lemma verify_payment_missing_status_witness :
  verify_payment "ref-1" silent_world
    = (set_gateway_calls ["ref-1"%string] silent_world, inr KeyError).
Proof.
  apply (verify_payment_missing_status silent_world 7 Sample.charge);
    [|reflexivity].
  split; [reflexivity|]. intros pid' p' Hp' _. cbn in Hp'.
  now apply lookup_singleton_Some in Hp' as [<- _].
Defined.

(** The world a successful verification of a linked payment leaves. *)
Lemma verify_payment_success_run (w : World) (pid bid : Z) (p : Payment)
    (B : Booking) :
  sole_payment w pid p ->
  p_booking p = Some bid ->
  bookings w !! bid = Some B ->
  data_status (chapa_verify (oracle w) (p_reference p)) = Some "success"%string ->
  ∃ w' resp job,
    verify_payment (p_reference p) w = (w', inl resp) ∧
    oracle w' = oracle w ∧
    ticks w' = S (S (ticks w)) ∧
    payments w' =
      <[pid := payment_verified "completed" (Some (now_at (oracle w) (ticks w)))
                 (chapa_verify (oracle w) (p_reference p)) p]> (payments w) ∧
    bookings w' =
      <[bid := booking_paid (now_at (oracle w) (S (ticks w))) B]> (bookings w) ∧
    queue w' = queue w ++ [job] ∧
    task job = CONFIRMATION ∧
    user_email job = email (guest B) ∧
    gateway_calls w' = gateway_calls w ++ [p_reference p].
Proof.
  intros Hsole Hlink HB Hgw.
  set (resp := chapa_verify (oracle w) (p_reference p)) in *.
  set (w1 := set_gateway_calls (gateway_calls w ++ [p_reference p]) w).
  eexists _, _, _. split.
  { unfold verify_payment.
    rewrite (bind_inl (verify_chapa_transaction (p_reference p)) _ w w1 resp)
      by reflexivity.
    rewrite (bind_inl (try (Payment_objects_get (p_reference p))) _ w1 w1
               (inl (pid, p))).
    2:{ apply try_eq. now apply (Payment_objects_get_sole w1). }
    rewrite Hgw.
    run_view. rewrite Hlink. run_view. rewrite HB. run_view.
    rewrite Hlink. reflexivity. }
  cbn. repeat split; reflexivity.
Qed.

(** Rewriting the row of the sole payment of a reference, keeping the
    reference, leaves it the sole payment. *)
Lemma sole_payment_rewritten (w w' : World) (pid : Z) (p p' : Payment) :
  sole_payment w pid p ->
  payments w' = <[pid := p']> (payments w) ->
  p_reference p' = p_reference p ->
  sole_payment w' pid p'.
Proof.
  intros [Hp Huniq] Hpay Href. split.
  - rewrite Hpay. apply lookup_insert_eq.
  - intros pid' q Hq Hr. destruct (decide (pid' = pid)) as [|Hne]; [assumption|].
    rewrite Hpay, lookup_insert_ne in Hq by congruence.
    apply (Huniq pid' q Hq). congruence.
Qed.

(** X5: [verify_payment] does not look at the payment's current status.
    A second successful verification of the same reference goes through
    like the first: the gateway is called again, the booking's [paid_at]
    moves to the later clock reading, and a second confirmation email
    for the guest is enqueued. *)
Theorem verify_payment_twice (w : World) (pid bid : Z) (p : Payment) (B : Booking) :
  sole_payment w pid p ->
  p_booking p = Some bid ->
  bookings w !! bid = Some B ->
  data_status (chapa_verify (oracle w) (p_reference p)) = Some "success"%string ->
  let w1 := (verify_payment (p_reference p) w).1 in
  let w2 := (verify_payment (p_reference p) w1).1 in
  ∃ job1 job2,
    queue w2 = queue w ++ [job1; job2] ∧
    task job1 = CONFIRMATION ∧ task job2 = CONFIRMATION ∧
    user_email job1 = email (guest B) ∧ user_email job2 = email (guest B) ∧
    gateway_calls w2 = gateway_calls w ++ [p_reference p; p_reference p] ∧
    bookings w2 !! bid
      = Some (booking_paid (now_at (oracle w) (S (S (S (ticks w))))) B).
Proof.
  intros Hsole Hlink HB Hgw w1 w2.
  destruct (verify_payment_success_run w pid bid p B Hsole Hlink HB Hgw)
    as (w1' & r1 & job1 & Hrun1 & Ho1 & Ht1 & Hp1 & Hb1 & Hq1 & Hk1 & Hu1 & Hg1).
  assert (Hw1 : w1 = w1') by (unfold w1; now rewrite Hrun1).
  clearbody w1. subst w1'.
  set (p1 := payment_verified "completed" (Some (now_at (oracle w) (ticks w)))
               (chapa_verify (oracle w) (p_reference p)) p) in *.
  assert (Hsole1 : sole_payment w1 pid p1)
    by (apply (sole_payment_rewritten w w1 pid p p1); auto).
  destruct (verify_payment_success_run w1 pid bid p1
              (booking_paid (now_at (oracle w) (S (ticks w))) B))
    as (w2' & r2 & job2 & Hrun2 & Ho2 & Ht2 & Hp2 & Hb2 & Hq2 & Hk2 & Hu2 & Hg2).
  - exact Hsole1.
  - exact Hlink.
  - rewrite Hb1. apply lookup_insert_eq.
  - rewrite Ho1. exact Hgw.
  - change (p_reference p1) with (p_reference p) in *.
    assert (Hw2 : w2 = w2') by (unfold w2; now rewrite Hrun2).
    clearbody w2. subst w2'.
    exists job1, job2. repeat split; try assumption.
    + rewrite Hq2, Hq1, <- app_assoc. reflexivity.
    + rewrite Hg2, Hg1, <- app_assoc. reflexivity.
    + rewrite Hb2, lookup_insert_eq, Ho1, Ht1. reflexivity.
Qed.

Lemma verify_payment_twice_witness :
  let w := Sample.world "pending" "success" in
  length (queue (verify_payment "ref-1" (verify_payment "ref-1" w).1).1) = 2%nat.
Proof.
  intros w.
  destruct (verify_payment_twice w 7 5 Sample.charge (Sample.stay "pending"))
    as (job1 & job2 & Hq & _).
  - apply sole_payment_sample.
  - reflexivity.
  - reflexivity.
  - reflexivity.
  - cbn in Hq. now rewrite Hq.
Defined.

(** ** Who reaches a booking *)

(** X6: [get_object] of [BookingViewSet] hands out the booking of key
    [pk] exactly to staff and to the booking's guest; everyone else, and
    every request for a key that is not in the table, gets 404.  It never
    changes the world. *)
Theorem get_object_found_iff (w : World) (actor : User) (pk : Z) :
  (∀ b, get_object actor pk w = (w, inl (pk, b)) ↔
        bookings w !! pk = Some b ∧ may_cancel actor b) ∧
  (get_object actor pk w = (w, inr Http404) ↔
   ∀ b, bookings w !! pk = Some b -> ¬ may_cancel actor b) ∧
  (get_object actor pk w).1 = w.
Proof.
  assert (Hcases :
    (∃ b, bookings w !! pk = Some b ∧ may_cancel actor b ∧
          get_object actor pk w = (w, inl (pk, b))) ∨
    ((∀ b, bookings w !! pk = Some b -> ¬ may_cancel actor b) ∧
     get_object actor pk w = (w, inr Http404))).
  { destruct (bookings w !! pk) as [b|] eqn:Hb.
    - destruct (is_staff actor) eqn:Hstaff.
      + left. exists b. split; [reflexivity|]. split; [now right|].
        apply get_object_visible; [exact Hb | now right].
      + destruct (decide (user_id (guest b) = user_id actor)) as [Hg|Hg].
        * left. exists b. split; [reflexivity|]. split; [now left|].
          apply get_object_visible; [exact Hb | now left].
        * right. split.
          -- intros b' [= <-] [?|?]; congruence.
          -- now apply (get_object_hidden w actor pk b).
    - right. split; [discriminate|].
      unfold get_object, BookingViewSet_get_queryset.
      destruct (is_staff actor); run_view.
      + now rewrite Hb.
      + replace (filter _ (bookings w) !! pk) with (@None Booking); [reflexivity|].
        symmetry. apply map_lookup_filter_None. now left. }
  destruct Hcases as [(b & Hb & Hmay & Hrun) | [Hnone Hrun]]; rewrite Hrun.
  - split; [|split; [|reflexivity]].
    + intros b'. split.
      * intros [= <-]. now split.
      * intros [Hb' _]. congruence.
    + split; [discriminate|]. intros Hno. exfalso. exact (Hno b Hb Hmay).
  - split; [|split; [|reflexivity]].
    + intros b. split; [discriminate|]. intros [Hb Hmay].
      exfalso. exact (Hnone b Hb Hmay).
    + split; [intros _; exact Hnone | reflexivity].
Qed.

(** X7: the permission test of [cancel] never fires.  Whoever the actor
    and whatever the key, [cancel] does not answer 403: a user who is
    neither staff nor the booking's guest is stopped earlier, by the 404
    of [get_object]. *)
Theorem cancel_never_forbidden (w : World) (actor : User) (pk : Z) :
  ∀ w' resp, cancel actor pk w = (w', inl resp) ->
             status_code resp ≠ HTTP_403_FORBIDDEN.
Proof.
  intros w' resp. unfold cancel.
  destruct (get_object actor pk w) as [w0 [[pk' b]|e]] eqn:Hget.
  2:{ rewrite (bind_inr _ _ w w0 e Hget). discriminate. }
  rewrite (bind_inl _ _ w w0 (pk', b) Hget).
  destruct (get_object_found_iff w actor pk) as (Hfound & _ & Hsame).
  rewrite Hget in Hsame. cbn in Hsame. subst w0.
  assert (pk' = pk) as ->.
  { revert Hget. unfold get_object, BookingViewSet_get_queryset.
    destruct (is_staff actor); run_view;
      match goal with |- context [?m !! pk] => destruct (m !! pk) end;
      congruence. }
  apply Hfound in Hget as [_ Hmay].
  assert (Hperm : negb (user_eqb (guest b) actor) && negb (is_staff actor) = false).
  { destruct Hmay as [Hguest | ->]; [|apply andb_false_r].
    unfold user_eqb. rewrite Hguest, Z.eqb_refl. reflexivity. }
  rewrite Hperm.
  destruct (can_be_cancelled b w) as [w1 [[|]|e]] eqn:Hcan.
  - rewrite (bind_inl _ _ w w1 true Hcan). run_view.
    intros [= <- <-]. discriminate.
  - rewrite (bind_inl _ _ w w1 false Hcan). intros [= <- <-]. discriminate.
  - rewrite (bind_inr _ _ w w1 e Hcan). discriminate.
Qed.

(** X8: when the booking's own rule allows it, a cancel request by the
    guest or by staff saves the booking cancelled with [cancelled_at] the
    clock reading, leaves its other fields and every other booking as
    they are, and enqueues one cancellation email, addressed to the
    requesting user (not to the guest when staff cancels). *)
Theorem cancel_accepted (w w1 : World) (actor : User) (pk : Z) (b : Booking) :
  bookings w !! pk = Some b ->
  may_cancel actor b ->
  can_be_cancelled b w = (w1, inl true) ->
  let b' := set_cancelled_at (Some (now_at (oracle w1) (ticks w1)))
              (set_status "cancelled" b) in
  ∃ w' job,
    cancel actor pk w
      = (w', inl {| body := BookingData pk b'; status_code := 200 |}) ∧
    bookings w' = <[pk := b']> (bookings w1) ∧
    payments w' = payments w1 ∧
    queue w' = queue w1 ++ [job] ∧
    task job = CANCELLATION ∧
    user_email job = email actor ∧
    dict_get (booking_data job) "booking_id" VNone = VInt pk.
Proof.
  intros Hb Hmay Hcan b'. unfold cancel.
  rewrite (bind_inl _ _ w w (pk, b) (get_object_visible w actor pk b Hb Hmay)).
  assert (Hperm : negb (user_eqb (guest b) actor) && negb (is_staff actor) = false).
  { destruct Hmay as [Hguest | ->]; [|apply andb_false_r].
    unfold user_eqb. rewrite Hguest, Z.eqb_refl. reflexivity. }
  rewrite Hperm, (bind_inl _ _ w w1 true Hcan).
  eexists _, _. split; [run_view; reflexivity|].
  cbn. repeat split; reflexivity.
Qed.

Lemma cancel_never_forbidden_witness :
  status_code cannot_be_cancelled ≠ HTTP_403_FORBIDDEN.
Proof.
  apply (cancel_never_forbidden (Sample.world "cancelled" "success")
           Sample.alice 5 (Sample.world "cancelled" "success")).
  reflexivity.
Defined.

Lemma cancel_accepted_witness :
  ∃ w' job,
    (cancel Sample.carol 5 (Sample.world "confirmed" "success")).1 = w' ∧
    status <$> bookings w' !! 5 = Some "cancelled"%string ∧
    queue w' = [job] ∧
    user_email job = "carol@example.com"%string.
Proof.
  destruct (cancel_accepted (Sample.world "confirmed" "success")
              (set_ticks 1 (Sample.world "confirmed" "success"))
              Sample.carol 5 (Sample.stay "confirmed"))
    as (w' & job & Hrun & Hb & _ & Hq & _ & Hto & _).
  - reflexivity.
  - right. reflexivity.
  - reflexivity.
  - exists w', job. split; [now rewrite Hrun|]. split; [|split].
    + rewrite Hb, lookup_insert_eq. reflexivity.
    + exact Hq.
    + exact Hto.
Defined.

(** X9: a confirm request by the booking's guest, when the guest is
    neither staff nor the listing's host, is answered 403 "Only the host
    or admin can confirm bookings." and changes nothing. *)
Theorem confirm_by_guest_forbidden (w : World) (actor : User) (pk : Z) (b : Booking) :
  bookings w !! pk = Some b ->
  user_id (guest b) = user_id actor ->
  is_staff actor = false ->
  user_id (host (listing b)) ≠ user_id actor ->
  confirm actor pk w
    = (w, inl (error_response "Only the host or admin can confirm bookings."
                 HTTP_403_FORBIDDEN)).
Proof.
  intros Hb Hguest Hstaff Hhost. unfold confirm.
  rewrite (bind_inl _ _ w w (pk, b)
             (get_object_visible w actor pk b Hb (or_introl Hguest))).
  rewrite Hstaff. unfold user_eqb.
  now rewrite (proj2 (Z.eqb_neq _ _) Hhost).
Qed.

Lemma confirm_by_guest_forbidden_witness :
  (confirm Sample.alice 5 (Sample.world "pending" "success")).1
    = Sample.world "pending" "success".
Proof.
  rewrite (confirm_by_guest_forbidden (Sample.world "pending" "success")
             Sample.alice 5 (Sample.stay "pending"));
    [reflexivity | reflexivity | reflexivity | reflexivity | discriminate].
Defined.

Lemma confirm_by_staff_witness :
  ∃ w',
    (confirm Sample.carol 5 (Sample.world "cancelled" "success")).1 = w' ∧
    status <$> bookings w' !! 5 = Some "confirmed"%string ∧
    length (queue w') = 1%nat.
Proof.
  destruct (confirm_by_staff (Sample.world "cancelled" "success")
              Sample.carol 5 (Sample.stay "cancelled") eq_refl eq_refl)
    as (w' & Hrun & Hb & Hq).
  exists w'. split; [now rewrite Hrun|]. split.
  - rewrite Hb, lookup_insert_eq. reflexivity.
  - now rewrite Hq.
Defined.

(** ** The list actions *)

Lemma elem_of_order_by key (rows : list (Z * Booking)) (row : Z * Booking) :
  row ∈ order_by key rows ↔ row ∈ rows.
Proof. unfold order_by. now rewrite merge_sort_Permutation. Qed.

Lemma elem_of_filtered_rows (P : Z * Booking -> Prop) `{!∀ kv, Decision (P kv)}
    (m : gmap Z Booking) (pk : Z) (b : Booking) :
  (pk, b) ∈ map_to_list (filter P m) ↔ m !! pk = Some b ∧ P (pk, b).
Proof. now rewrite elem_of_map_to_list, map_lookup_filter_Some. Qed.

Lemma StronglySorted_weaken {A : Type} (R S : relation A) (l : list A) :
  (∀ x y, R x y -> S x y) -> StronglySorted R l -> StronglySorted S l.
Proof.
  intros HRS. induction 1 as [|x l _ IH Hx]; constructor; [exact IH|].
  eapply Forall_impl; [exact Hx|]. intros y. apply HRS.
Qed.

(** The rows of [upcoming]. *)
Lemma upcoming_rows_of (w : World) (user : User) :
  ∃ rows,
    upcoming user w = (set_ticks (S (ticks w)) w, inl rows) ∧
    ∀ pk b, (pk, b) ∈ rows ↔
            bookings w !! pk = Some b ∧
            is_upcoming user (date_of (now_at (oracle w) (ticks w))) (pk, b).
Proof.
  eexists. split; [reflexivity|].
  intros pk b. now rewrite elem_of_order_by, elem_of_filtered_rows.
Qed.

(** The rows of [past]. *)
Lemma past_rows_of (w : World) (user : User) :
  ∃ rows,
    past user w = (set_ticks (S (ticks w)) w, inl rows) ∧
    ∀ pk b, (pk, b) ∈ rows ↔
            bookings w !! pk = Some b ∧
            is_past user (date_of (now_at (oracle w) (ticks w))) (pk, b).
Proof.
  eexists. split; [reflexivity|].
  intros pk b. now rewrite elem_of_order_by, elem_of_filtered_rows.
Qed.

(** X10: [upcoming] and [past] read the clock once and change nothing
    else.  [upcoming] lists exactly the requesting user's confirmed
    bookings whose check-in is today or later, earliest check-in first;
    [past] lists exactly the user's bookings, of any status, whose
    check-out is before today, latest check-out first.  No booking is
    listed twice. *)
Theorem upcoming_and_past_rows (w : World) (user : User) :
  let today := date_of (now_at (oracle w) (ticks w)) in
  (∃ rows,
     upcoming user w = (set_ticks (S (ticks w)) w, inl rows) ∧
     StronglySorted (λ a b, check_in a.2 ≤ check_in b.2) rows ∧
     NoDup rows ∧
     ∀ pk b, (pk, b) ∈ rows ↔
             bookings w !! pk = Some b ∧
             user_id (guest b) = user_id user ∧
             today ≤ check_in b ∧ status b = "confirmed"%string) ∧
  (∃ rows,
     past user w = (set_ticks (S (ticks w)) w, inl rows) ∧
     StronglySorted (λ a b, check_out b.2 ≤ check_out a.2) rows ∧
     NoDup rows ∧
     ∀ pk b, (pk, b) ∈ rows ↔
             bookings w !! pk = Some b ∧
             user_id (guest b) = user_id user ∧ check_out b < today).
Proof.
  intros today. split.
  - eexists. split; [reflexivity|]. split; [|split].
    + apply (StronglySorted_merge_sort (by_key check_in)).
    + unfold order_by. rewrite merge_sort_Permutation. apply NoDup_map_to_list.
    + intros pk b. rewrite elem_of_order_by, elem_of_filtered_rows. reflexivity.
  - eexists. split; [reflexivity|]. split; [|split].
    + eapply StronglySorted_weaken;
        [|apply (StronglySorted_merge_sort (by_key (λ b, - check_out b)))].
      intros a b. unfold by_key. cbn. lia.
    + unfold order_by. rewrite merge_sort_Permutation. apply NoDup_map_to_list.
    + intros pk b. rewrite elem_of_order_by, elem_of_filtered_rows. reflexivity.
Qed.

(** X11: a stay in progress is in neither list.  A booking whose
    check-in is before today and whose check-out is today or later is
    returned neither by [upcoming] nor by [past], whatever its status and
    whoever asks. *)
Theorem stay_in_progress_unlisted (w : World) (user : User) (pk : Z) (b : Booking) :
  let today := date_of (now_at (oracle w) (ticks w)) in
  check_in b < today ->
  today ≤ check_out b ->
  (∀ rows, (upcoming user w).2 = inl rows -> (pk, b) ∉ rows) ∧
  (∀ rows, (past user w).2 = inl rows -> (pk, b) ∉ rows).
Proof.
  intros today Hin Hout.
  destruct (upcoming_rows_of w user) as (up & Hup & Hupin).
  destruct (past_rows_of w user) as (pa & Hpa & Hpain).
  rewrite Hup, Hpa. split; intros rows [= <-] Hrow.
  - apply Hupin in Hrow as [_ (_ & Hrow & _)]. cbn in Hrow. fold today in Hrow. lia.
  - apply Hpain in Hrow as [_ [_ Hrow]]. cbn in Hrow. fold today in Hrow. lia.
Qed.

(** X12: what a host is shown and what a host may touch differ.  A
    non-staff host finds a guest's booking of their listing in
    [host_bookings], but the confirm request for that same booking is
    answered 404 and changes nothing. *)
Theorem host_sees_but_cannot_confirm (w : World) (actor : User) (pk : Z)
    (b : Booking) :
  bookings w !! pk = Some b ->
  listing_id (listing b) ∈ user_listings w actor ->
  is_staff actor = false ->
  user_id (guest b) ≠ user_id actor ->
  (∃ rows, host_bookings actor w = (w, inl rows) ∧ (pk, b) ∈ rows) ∧
  confirm actor pk w = (w, inr Http404).
Proof.
  intros Hb Hhosted Hstaff Hguest. split.
  - eexists. split; [reflexivity|].
    apply elem_of_order_by, elem_of_filtered_rows. now split.
  - unfold confirm.
    now rewrite (bind_inr _ _ _ _ Http404
                   (get_object_hidden w actor pk b Hb Hstaff Hguest)).
Qed.

Lemma host_sees_but_cannot_confirm_witness :
  (∃ rows, host_bookings Sample.bob (Sample.world "pending" "success")
             = (Sample.world "pending" "success", inl rows) ∧
           (5, Sample.stay "pending") ∈ rows) ∧
  confirm Sample.bob 5 (Sample.world "pending" "success")
    = (Sample.world "pending" "success", inr Http404).
Proof.
  apply (host_sees_but_cannot_confirm (Sample.world "pending" "success")
           Sample.bob 5 (Sample.stay "pending")).
  - reflexivity.
  - vm_compute. apply list_elem_of_here.
  - reflexivity.
  - discriminate.
Defined.

(** X13: [ListingViewSet.bookings] does not look at who asks.  For an
    active listing it returns every booking of the listing, also those
    that [BookingViewSet.get_object] hides from the same user with a
    404. *)
Theorem listing_bookings_shows_hidden (parse_date : string -> option Date)
    (w : World) (actor : User) (pk : Z) (b : Booking) (L : Listing) :
  bookings w !! pk = Some b ->
  filter (λ l, listing_id l = listing_id (listing b)) (active_listings w) = [L] ->
  is_staff actor = false ->
  user_id (guest b) ≠ user_id actor ->
  get_object actor pk w = (w, inr Http404) ∧
  ∃ rows,
    ListingViewSet_bookings parse_date None None (listing_id (listing b)) w
      = (w, inl rows) ∧
    (pk, b) ∈ rows ∧
    ∀ pk' b', (pk', b') ∈ rows ↔
              bookings w !! pk' = Some b' ∧
              listing_id (listing b') = listing_id (listing b).
Proof.
  intros Hb HL Hstaff Hguest.
  split; [now apply (get_object_hidden w actor pk b)|].
  assert (HLid : listing_id L = listing_id (listing b)).
  { assert (Hin : L ∈ filter (λ l, listing_id l = listing_id (listing b))
                        (active_listings w))
      by (rewrite HL; apply list_elem_of_here).
    now apply list_elem_of_filter in Hin as [? _]. }
  eexists. split.
  - unfold ListingViewSet_bookings, ListingViewSet_get_object,
      ListingViewSet_get_queryset.
    run_view. rewrite HL. run_view. rewrite HLid. reflexivity.
  - split.
    + now apply elem_of_filtered_rows.
    + intros pk' b'. now rewrite elem_of_filtered_rows.
Qed.

Lemma listing_bookings_shows_hidden_witness :
  get_object Sample.bob 5 (Sample.world "pending" "success")
    = (Sample.world "pending" "success", inr Http404) ∧
  ∃ rows,
    ListingViewSet_bookings SampleSearch.parse_date None None 10
      (Sample.world "pending" "success")
      = (Sample.world "pending" "success", inl rows) ∧
    (5, Sample.stay "pending") ∈ rows.
Proof.
  destruct (listing_bookings_shows_hidden SampleSearch.parse_date
              (Sample.world "pending" "success") Sample.bob 5
              (Sample.stay "pending") Sample.villa)
    as (Hhidden & rows & Hrun & Hin & _).
  - reflexivity.
  - vm_compute. reflexivity.
  - reflexivity.
  - discriminate.
  - split; [exact Hhidden|]. exists rows. split; [exact Hrun | exact Hin].
Defined.

(** ** [start_payment] *)

Section StartPaymentProperties.

Variable initialize_chapa_transaction : string -> string -> string -> ChapaInitResponse.
Variable to_int : string -> option Z.
Variable to_decimal : string -> option Decimal.

Let start := start_payment initialize_chapa_transaction to_int to_decimal.

Lemma truthy_str_Some (s : string) : s ≠ ""%string -> truthy_str (Some s) = true.
Proof. intros Hs. cbn. now apply negb_true_iff, String.eqb_neq. Qed.

(** X14: without an amount or without an email (absent or empty) the
    view answers 400 before it does anything: no reference is drawn, the
    gateway is not asked, nothing is written. *)
Theorem start_payment_needs_amount_and_email (w : World) (query : StartPaymentQuery) :
  truthy_str (q_amount query) = false ∨ truthy_str (q_email query) = false ->
  start query w
    = (w, inl (error_response "Amount and email are required."
                 HTTP_400_BAD_REQUEST)).
Proof.
  intros Hmissing. unfold start, start_payment.
  destruct (q_amount query) as [amount|], (q_email query) as [email|];
    try reflexivity.
  destruct Hmissing as [H|H]; rewrite H; [reflexivity|].
  now rewrite orb_true_r.
Qed.

(** X15: when the gateway does not answer the initialize call with
    status "success", the view answers 500 "Failed to initialize
    payment." and stores no Payment; only a reference has been drawn. *)
Theorem start_payment_gateway_refusal (w : World) (query : StartPaymentQuery)
    (amount email : string) :
  asks_payment query amount email ->
  init_status (initialize_chapa_transaction amount email
                 (uuid_str (uuid_at (oracle w) (uuids_drawn w))))
    ≠ Some "success"%string ->
  start query w
    = (set_uuids_drawn (S (uuids_drawn w)) w,
       inl (error_response "Failed to initialize payment."
              HTTP_500_INTERNAL_SERVER_ERROR)).
Proof.
  intros (Ha & Hane & He & Hene) Hrefused. unfold start, start_payment.
  rewrite Ha, He, (truthy_str_Some _ Hane), (truthy_str_Some _ Hene).
  run_view. now rewrite bool_decide_eq_false_2.
Qed.

(** X16: when [booking_id] names no booking (it is not a number, or no
    row has that key), the view answers 500 after the gateway has
    accepted the transaction: no Payment row records it and no booking
    changes. *)
Theorem start_payment_unknown_booking (w : World) (query : StartPaymentQuery)
    (amount email id tx_ref : string) :
  asks_payment query amount email ->
  initialized (initialize_chapa_transaction amount email
                 (uuid_str (uuid_at (oracle w) (uuids_drawn w)))) tx_ref ->
  q_booking_id query = Some id -> id ≠ ""%string ->
  (∀ bid, to_int id = Some bid -> bookings w !! bid = None) ->
  ∃ resp,
    start query w = (set_uuids_drawn (S (uuids_drawn w)) w, inl resp) ∧
    status_code resp = HTTP_500_INTERNAL_SERVER_ERROR.
Proof.
  intros (Ha & Hane & He & Hene) [Hok Htx] Hid Hidne Hunknown.
  unfold start, start_payment, start_payment_store, start_payment_booking.
  rewrite Ha, He, (truthy_str_Some _ Hane), (truthy_str_Some _ Hene), Hid,
    (truthy_str_Some _ Hidne).
  run_view. rewrite bool_decide_eq_true_2 by exact Hok. run_view.
  destruct (to_int id) as [bid|] eqn:Hint; run_view.
  - rewrite (Hunknown bid eq_refl). run_view. eexists. split; reflexivity.
  - eexists. split; reflexivity.
Qed.

(** What [start_payment] leaves behind for an existing booking. *)
Lemma start_payment_for_booking_run (w : World) (query : StartPaymentQuery)
    (amount email id tx_ref : string) (value : Decimal) (bid : Z) (b : Booking) :
  let reference := uuid_str (uuid_at (oracle w) (uuids_drawn w)) in
  let answer := initialize_chapa_transaction amount email reference in
  asks_payment query amount email ->
  initialized answer tx_ref ->
  to_decimal amount = Some value ->
  q_booking_id query = Some id -> id ≠ ""%string ->
  to_int id = Some bid ->
  bookings w !! bid = Some b ->
  ∃ w' resp,
    start query w = (w', inl resp) ∧
    (oracle w', ticks w', gateway_calls w') = (oracle w, ticks w, gateway_calls w) ∧
    payments w' = <[fresh (dom (payments w)) :=
                      started (Some bid) value email reference tx_ref]> (payments w) ∧
    bookings w' = <[bid := set_payment_status (Some "pending"%string) b]> (bookings w) ∧
    queue w' = queue w ∧
    status_code resp =
      match init_checkout_url answer with
      | Some _ => 200
      | None => HTTP_500_INTERNAL_SERVER_ERROR
      end.
Proof.
  intros reference answer (Ha & Hane & He & Hene) [Hok Htx] Hdec Hid Hidne Hint Hb.
  unfold start, start_payment, start_payment_store, start_payment_booking,
    Payment_objects_create.
  rewrite Ha, He, (truthy_str_Some _ Hane), (truthy_str_Some _ Hene), Hid,
    (truthy_str_Some _ Hidne).
  run_view. fold reference. fold answer.
  rewrite bool_decide_eq_true_2 by exact Hok. run_view.
  rewrite Hint. run_view. rewrite Hb. run_view. rewrite Htx, Hdec. run_view.
  destruct (init_checkout_url answer); run_view;
    (eexists _, _; split; [reflexivity|]); repeat split; reflexivity.
Qed.

(** X17: a payment started for an existing booking is stored pending
    under a new key, linked to the booking, with the drawn reference and
    the gateway's transaction reference; the booking's [payment_status]
    becomes pending whatever it was before, and nothing else of the
    booking changes.  No email is enqueued.  This holds whether or not
    the gateway's answer carries a [checkout_url]: without one the view
    answers 500 although the rows have been written. *)
Theorem start_payment_for_booking (w : World) (query : StartPaymentQuery)
    (amount email id tx_ref : string) (value : Decimal) (bid : Z) (b : Booking) :
  let reference := uuid_str (uuid_at (oracle w) (uuids_drawn w)) in
  let answer := initialize_chapa_transaction amount email reference in
  asks_payment query amount email ->
  initialized answer tx_ref ->
  to_decimal amount = Some value ->
  q_booking_id query = Some id -> id ≠ ""%string ->
  to_int id = Some bid ->
  bookings w !! bid = Some b ->
  ∃ w' resp,
    start query w = (w', inl resp) ∧
    payments w !! fresh (dom (payments w)) = None ∧
    payments w' = <[fresh (dom (payments w)) :=
                      started (Some bid) value email reference tx_ref]> (payments w) ∧
    bookings w' = <[bid := set_payment_status (Some "pending"%string) b]> (bookings w) ∧
    queue w' = queue w ∧
    status_code resp =
      match init_checkout_url answer with
      | Some _ => 200
      | None => HTTP_500_INTERNAL_SERVER_ERROR
      end.
Proof.
  intros reference answer Hasks Hinit Hdec Hid Hidne Hint Hb.
  destruct (start_payment_for_booking_run w query amount email id tx_ref value
              bid b Hasks Hinit Hdec Hid Hidne Hint Hb)
    as (w' & resp & Hrun & _ & Hp & Hbk & Hq & Hcode).
  exists w', resp. split; [exact Hrun|].
  split; [apply fresh_key_unused|]. repeat split; assumption.
Qed.

(** X18: a started payment can be verified.  When no earlier payment
    carries the drawn reference and the gateway then reports "success"
    for it, [verify_payment] finds the row [start_payment] stored,
    completes it, confirms the booking with [payment_status] completed,
    and enqueues the one confirmation email of the two calls. *)
Theorem start_then_verify (w : World) (query : StartPaymentQuery)
    (amount payer id tx_ref : string) (value : Decimal) (bid : Z) (b : Booking) :
  let reference := uuid_str (uuid_at (oracle w) (uuids_drawn w)) in
  let answer := initialize_chapa_transaction amount payer reference in
  asks_payment query amount payer ->
  initialized answer tx_ref ->
  to_decimal amount = Some value ->
  q_booking_id query = Some id -> id ≠ ""%string ->
  to_int id = Some bid ->
  bookings w !! bid = Some b ->
  no_payment w reference ->
  data_status (chapa_verify (oracle w) reference) = Some "success"%string ->
  let w1 := (start query w).1 in
  let w2 := (verify_payment reference w1).1 in
  ∃ p' b' job,
    payments w2 !! fresh (dom (payments w)) = Some p' ∧
    p_status p' = "completed"%string ∧
    p_paid_at p' = Some (now_at (oracle w) (ticks w)) ∧
    bookings w2 !! bid = Some b' ∧
    b' = booking_paid (now_at (oracle w) (S (ticks w)))
           (set_payment_status (Some "pending"%string) b) ∧
    status b' = "confirmed"%string ∧
    payment_status b' = Some "completed"%string ∧
    queue w2 = queue w ++ [job] ∧
    task job = CONFIRMATION ∧
    user_email job = email (guest b).
Proof.
  intros reference answer Hasks Hinit Hdec Hid Hidne Hint Hb Hnew Hgw w1 w2.
  destruct (start_payment_for_booking_run w query amount payer id tx_ref value
              bid b Hasks Hinit Hdec Hid Hidne Hint Hb)
    as (w1' & resp & Hrun & [= Ho Ht Hg] & Hp & Hbk & Hq & _).
  assert (Hw1 : w1 = w1') by (unfold w1; now rewrite Hrun).
  clearbody w1. subst w1'. fold reference in Hp.
  set (pid := fresh (dom (payments w))) in *.
  set (p := started (Some bid) value payer reference tx_ref) in *.
  assert (Hsole : sole_payment w1 pid p).
  { split; [rewrite Hp; apply lookup_insert_eq|].
    intros pid' q Hq' Href. destruct (decide (pid' = pid)) as [|Hne]; [assumption|].
    rewrite Hp, lookup_insert_ne in Hq' by congruence.
    exfalso. exact (Hnew pid' q Hq' Href). }
  destruct (verify_payment_success_run w1 pid bid p
              (set_payment_status (Some "pending"%string) b))
    as (w2' & r2 & job & Hrun2 & _ & _ & Hp2 & Hb2 & Hq2 & Hk2 & Hu2 & _).
  - exact Hsole.
  - reflexivity.
  - rewrite Hbk. apply lookup_insert_eq.
  - rewrite Ho. exact Hgw.
  - change (p_reference p) with reference in Hrun2.
    assert (Hw2 : w2 = w2') by (unfold w2; now rewrite Hrun2).
    clearbody w2. subst w2'.
    eexists _, _, job. split; [rewrite Hp2; apply lookup_insert_eq|].
    rewrite Ho, Ht. split; [reflexivity|]. split; [reflexivity|].
    split; [rewrite Hb2; apply lookup_insert_eq|].
    rewrite Ho, Ht. repeat split; try reflexivity; try assumption.
    now rewrite Hq2, Hq.
Qed.

End StartPaymentProperties.

Lemma sample_query_asks (booking_id : string) :
  asks_payment (SamplePay.query booking_id) "750.00" "alice@example.com".
Proof. repeat split; discriminate. Qed.

Lemma start_payment_needs_amount_and_email_witness :
  start_payment SamplePay.accepting SamplePay.to_int SamplePay.to_decimal
    {| q_amount := Some "750.00"%string; q_email := Some ""%string;
       q_booking_id := None |}
    (Sample.world "pending" "success")
  = (Sample.world "pending" "success",
     inl (error_response "Amount and email are required." HTTP_400_BAD_REQUEST)).
Proof.
  apply start_payment_needs_amount_and_email. right. reflexivity.
Defined.

Lemma start_payment_gateway_refusal_witness :
  payments
    (start_payment SamplePay.refusing SamplePay.to_int SamplePay.to_decimal
       (SamplePay.query "5") (Sample.world "pending" "success")).1
  = {[ 7 := Sample.charge ]}.
Proof.
  rewrite (start_payment_gateway_refusal SamplePay.refusing SamplePay.to_int
             SamplePay.to_decimal (Sample.world "pending" "success")
             (SamplePay.query "5") "750.00" "alice@example.com"
             (sample_query_asks "5")).
  - reflexivity.
  - discriminate.
Defined.

Lemma start_payment_unknown_booking_witness :
  ∃ resp,
    start_payment SamplePay.accepting SamplePay.to_int SamplePay.to_decimal
      (SamplePay.query "6") (Sample.world "pending" "success")
    = (set_uuids_drawn 1 (Sample.world "pending" "success"), inl resp) ∧
    status_code resp = 500.
Proof.
  apply (start_payment_unknown_booking SamplePay.accepting SamplePay.to_int
           SamplePay.to_decimal (Sample.world "pending" "success")
           (SamplePay.query "6") "750.00" "alice@example.com" "6"
           (uuid_str (uuid_at (oracle (Sample.world "pending" "success")) 0))
           (sample_query_asks "6")).
  - split; reflexivity.
  - reflexivity.
  - discriminate.
  - intros bid [= <-]. reflexivity.
Defined.

Lemma start_payment_for_booking_witness :
  ∃ w' resp,
    start_payment SamplePay.accepting SamplePay.to_int SamplePay.to_decimal
      (SamplePay.query "5") (Sample.world "confirmed" "success") = (w', inl resp) ∧
    size (payments w') = 2%nat ∧
    payment_status <$> bookings w' !! 5 = Some (Some "pending"%string) ∧
    status_code resp = 200.
Proof.
  destruct (start_payment_for_booking SamplePay.accepting SamplePay.to_int
              SamplePay.to_decimal (Sample.world "confirmed" "success")
              (SamplePay.query "5") "750.00" "alice@example.com" "5"
              (uuid_str (uuid_at (oracle (Sample.world "confirmed" "success")) 0))
              75000 5 (Sample.stay "confirmed") (sample_query_asks "5"))
    as (w' & resp & Hrun & Hfree & Hp & Hb & _ & Hcode).
  - split; reflexivity.
  - reflexivity.
  - reflexivity.
  - discriminate.
  - reflexivity.
  - reflexivity.
  - exists w', resp. split; [exact Hrun|]. split; [|split].
    + rewrite Hp. now rewrite map_size_insert_None.
    + rewrite Hb, lookup_insert_eq. reflexivity.
    + exact Hcode.
Defined.

Lemma start_then_verify_witness :
  let w := Sample.world "pending" "success" in
  let reference := uuid_str (uuid_at (oracle w) (uuids_drawn w)) in
  let w1 := (start_payment SamplePay.accepting SamplePay.to_int
               SamplePay.to_decimal (SamplePay.query "5") w).1 in
  status <$> bookings (verify_payment reference w1).1 !! 5
    = Some "confirmed"%string.
Proof.
  intros w reference w1.
  destruct (start_then_verify SamplePay.accepting SamplePay.to_int
              SamplePay.to_decimal w (SamplePay.query "5") "750.00"
              "alice@example.com" "5" reference 75000 5 (Sample.stay "pending")
              (sample_query_asks "5"))
    as (p' & b' & job & _ & _ & _ & Hb & _ & Hst & _).
  - split; reflexivity.
  - reflexivity.
  - reflexivity.
  - discriminate.
  - reflexivity.
  - reflexivity.
  - intros pid p Hp. cbn in Hp.
    apply lookup_singleton_Some in Hp as [_ <-]. vm_compute. discriminate.
  - reflexivity.
  - fold w1 in Hb. unfold reference. rewrite Hb. cbn. now rewrite Hst.
Defined.

Lemma stay_in_progress_unlisted_witness :
  let w := set_bookings {[ 4 := stay_in_progress ]} (Sample.world "pending" "success") in
  (∀ rows, (upcoming Sample.alice w).2 = inl rows -> (4, stay_in_progress) ∉ rows) ∧
  (∀ rows, (past Sample.alice w).2 = inl rows -> (4, stay_in_progress) ∉ rows).
Proof.
  intros w.
  apply (stay_in_progress_unlisted w Sample.alice 4 stay_in_progress);
    vm_compute; [reflexivity | discriminate].
Defined.

(** ** [search] on every input *)

Lemma elem_of_filter_if {V : Type} (v : option V) (truthy : option V -> bool)
    (cond : V -> Listing -> bool) (queryset : list Listing) (L : Listing) :
  L ∈ filter_if v truthy cond queryset ↔
  L ∈ queryset ∧ ∀ x, (if truthy v then v else None) = Some x -> cond x L = true.
Proof.
  unfold filter_if. destruct v as [x|]; [destruct (truthy (Some x))|].
  - rewrite list_elem_of_filter. split.
    + intros [Hc HL]. split; [exact HL|]. now intros ? [= <-].
    + intros [HL Hc]. split; [now apply Hc | exact HL].
  - split; [intros HL; split; [exact HL | discriminate] | tauto].
  - split; [|tauto]. intros HL. split; [exact HL|].
    intros x. destruct (truthy None); discriminate.
Qed.

Lemma elem_of_amenities_filter (data : ListingSearchData)
    (queryset : list Listing) (L : Listing) :
  L ∈ amenities_filter data queryset ↔
  L ∈ queryset ∧
  ∀ wanted, given_list (s_amenities data) = Some wanted ->
            ∃ amenity, amenity ∈ wanted ∧ amenity ∈ amenities L.
Proof.
  unfold amenities_filter, given_list.
  destruct (s_amenities data) as [[|a rest]|].
  - split; [intros HL; split; [exact HL | discriminate] | tauto].
  - rewrite list_elem_of_filter, Exists_exists. split.
    + intros [Hc HL]. split; [exact HL|]. now intros ? [= <-].
    + intros [HL Hc]. split; [now apply Hc | exact HL].
  - split; [intros HL; split; [exact HL | discriminate] | tauto].
Qed.

Lemma elem_of_availability_filter (w : World) (ci co : option Date)
    (queryset : list Listing) (L : Listing) :
  L ∈ availability_filter w ci co queryset ↔
  L ∈ queryset ∧
  ∀ i o, ci = Some i -> co = Some o -> ¬ overlapped w (listing_id L) i o.
Proof.
  unfold availability_filter. destruct ci as [i|], co as [o|].
  - rewrite exclude_id_in_spec, unavailable_listings_spec. split.
    + intros [HL Hfree]. split; [exact HL|]. now intros ? ? [= <-] [= <-].
    + intros [HL Hfree]. split; [exact HL | now apply Hfree].
  - split; [intros HL; split; [exact HL | congruence] | tauto].
  - split; [intros HL; split; [exact HL | congruence] | tauto].
  - split; [intros HL; split; [exact HL | congruence] | tauto].
Qed.

(** X19: for valid data, [search] changes nothing and returns exactly
    the listings of the table that are active, meet every criterion the
    data gives with a truthy value (city and country as case-insensitive
    substrings, guests as a lower bound on capacity, the property type,
    the price bounds, some requested amenity) and, when both dates are
    given, have no confirmed or active booking overlapping the window. *)
Theorem search_results_iff (w : World) (data : ListingSearchData) :
  ∃ results,
    search (inl data) w
      = (w, inl {| body := ListingData results; status_code := 200 |}) ∧
    ∀ L, L ∈ results ↔
         L ∈ listings w ∧ listing_status L = "active"%string ∧ meets w data L.
Proof.
  eexists. split; [unfold search; run_view; reflexivity|]. intros L.
  rewrite elem_of_amenities_filter, elem_of_availability_filter.
  unfold criteria_filters. rewrite !elem_of_filter_if.
  unfold active_listings. rewrite list_elem_of_filter.
  unfold meets, given_str, given_num.
  setoid_rewrite Z.leb_le. setoid_rewrite String.eqb_eq. tauto.
Qed.

Lemma filter_if_given_str (v : option string) cond (queryset : list Listing) :
  filter_if (given_str v) truthy_str cond queryset
  = filter_if v truthy_str cond queryset.
Proof.
  unfold given_str, filter_if. destruct v as [s|]; [|reflexivity].
  destruct (truthy_str (Some s)) eqn:Hs; [now rewrite Hs | reflexivity].
Qed.

Lemma filter_if_given_num (v : option Z) cond (queryset : list Listing) :
  filter_if (given_num v) truthy_num cond queryset
  = filter_if v truthy_num cond queryset.
Proof.
  unfold given_num, filter_if. destruct v as [z|]; [|reflexivity].
  destruct (truthy_num (Some z)) eqn:Hz; [now rewrite Hz | reflexivity].
Qed.

(** X20: a criterion given with a falsy value is no criterion.  An empty
    city, country or property type, a zero number of guests, a zero
    minimum or maximum price and an empty list of amenities are skipped
    by [search] as if they were absent: a search for [max_price = 0]
    answers like a search with no price bound. *)
Theorem search_skips_falsy_criteria (w : World) (data : ListingSearchData) :
  search (inl data) w = search (inl (without_falsy data)) w.
Proof.
  unfold search. run_view. do 4 f_equal.
  unfold amenities_filter, criteria_filters, without_falsy. cbn.
  rewrite !filter_if_given_str, !filter_if_given_num.
  destruct (s_amenities data) as [[|a rest]|]; reflexivity.
Qed.

(** X21: the availability test needs both dates.  [search] with only one
    of [check_in] and [check_out] answers like the same search with
    neither, and [get_queryset] with one of the two query parameters
    absent or empty returns every active listing: listings booked over
    any period are not excluded. *)
Theorem window_needs_both_dates (parse_date : string -> option Date) (w : World) :
  (∀ data, s_check_in data = None ∨ s_check_out data = None ->
           search (inl data) w = search (inl (without_window data)) w) ∧
  (∀ check_in check_out,
     truthy_str check_in = false ∨ truthy_str check_out = false ->
     ListingViewSet_get_queryset parse_date check_in check_out w
       = (w, inl (active_listings w))).
Proof.
  split.
  - intros data Hone. unfold search. run_view. do 4 f_equal.
    unfold availability_filter, without_window. cbn.
    destruct Hone as [-> | ->]; [reflexivity|].
    now destruct (s_check_in data).
  - intros check_in check_out Hone. unfold ListingViewSet_get_queryset.
    run_view. destruct Hone as [-> | ->]; [reflexivity|].
    now rewrite andb_false_r.
Qed.

Lemma window_needs_both_dates_witness :
  ListingViewSet_get_queryset SampleSearch.parse_date
    (Some "2024-12-26"%string) None (Sample.world "confirmed" "success")
  = (Sample.world "confirmed" "success", inl [Sample.villa]).
Proof.
  apply (proj2 (window_needs_both_dates SampleSearch.parse_date
                  (Sample.world "confirmed" "success"))).
  right. reflexivity.
Defined.

(** ** The confirmation task under any mail behaviour *)

(** An execution either returns or ends in [self.retry(countdown=300)]. *)
Lemma execution_outcome (mail : Celery.Mail) (r : nat) (data : dict)
    (user_email : string) :
  (∃ lines result,
     Celery.send_booking_confirmation_email mail r data user_email
       = (lines, Celery.Returned result)) ∨
  (∃ lines,
     Celery.send_booking_confirmation_email mail r data user_email
       = (lines, Celery.retry Celery.max_retries r 300)).
Proof.
  unfold Celery.send_booking_confirmation_email.
  match goal with |- context [Celery.delivered mail r ?m] =>
    destruct (Celery.delivered mail r m) end.
  - left. eexists _, _. reflexivity.
  - right. eexists. reflexivity.
Qed.

Lemma worker_bounded_from (fuel : nat) (mail : Celery.Mail) (r : nat)
    (data : dict) (user_email : string) :
  (r <= 3)%nat ->
  let run := Celery.worker fuel mail r data user_email in
  (Celery.executions run <= 4 - r)%nat ∧
  (length (Celery.countdowns run) <= 3 - r)%nat ∧
  Forall (eq 300) (Celery.countdowns run) ∧
  ((4 - r <= fuel)%nat ->
   Celery.state run ≠ Celery.RETRY ∧
   Celery.executions run = S (length (Celery.countdowns run))).
Proof.
  revert r. induction fuel as [|fuel IH]; intros r Hr.
  - cbn. repeat split; [lia | lia | constructor | lia | lia].
  - cbn [Celery.worker].
    destruct (execution_outcome mail r data user_email)
      as [(lines & result & ->) | (lines & ->)].
    + cbn. repeat split; [lia | lia | constructor | discriminate].
    + unfold Celery.retry, Celery.max_retries.
      destruct (3 <? r + 1)%nat eqn:Hlast.
      * cbn. repeat split; [lia | lia | constructor | discriminate].
      * apply Nat.ltb_ge in Hlast.
        destruct (IH (S r) ltac:(lia)) as (Hex & Hlen & Hall & Hend).
        cbn. split; [lia|]. split; [lia|]. split; [now constructor|].
        intros Hfuel. destruct Hend as [Hstate Hcount]; [lia|].
        split; [exact Hstate | now f_equal].
Qed.

(** X22: the retries are bounded whatever the mail system does.  For
    every pattern of failures and successes, the worker executes the
    confirmation task at most 4 times and re-sends it at most 3 times,
    always with a countdown of 300 seconds; with fuel for 4 executions
    the run has ended (SUCCESS or FAILURE) and every execution but the
    last was followed by one retry. *)
Theorem confirmation_email_bounded (fuel : nat) (mail : Celery.Mail)
    (data : dict) (user_email : string) :
  let run := Celery.worker fuel mail 0 data user_email in
  (Celery.executions run <= 4)%nat ∧
  (length (Celery.countdowns run) <= 3)%nat ∧
  Forall (eq 300) (Celery.countdowns run) ∧
  ((4 <= fuel)%nat ->
   Celery.state run ≠ Celery.RETRY ∧
   Celery.executions run = S (length (Celery.countdowns run))).
Proof.
  intros run.
  destruct (worker_bounded_from fuel mail 0 data user_email) as
    (Hexec & Hlen & Hall & Hend); [lia|].
  split; [exact Hexec|]. split; [exact Hlen|]. split; [exact Hall|].
  intros Hfuel. apply Hend. lia.
Qed.

Lemma worker_first_delivery_from (k : nat) :
  ∀ (fuel : nat) (mail : Celery.Mail) (r : nat) (data : dict) (user_email : string),
    (r + k <= 3)%nat -> (k < fuel)%nat ->
    (∀ n message, (r <= n < r + k)%nat -> Celery.delivered mail n message = false) ->
    (∀ message, Celery.delivered mail (r + k) message = true) ->
    let run := Celery.worker fuel mail r data user_email in
    Celery.executions run = S k ∧
    Celery.countdowns run = replicate k 300 ∧
    Celery.state run = Celery.SUCCESS ∧
    Celery.log run
      = replicate k (Celery.Error "Failed to send booking confirmation email")
        ++ [Celery.Info ("Booking confirmation email sent successfully to "
                           +:+ user_email)].
Proof.
  induction k as [|k IH]; intros fuel mail r data user_email Hk Hfuel Hfail Hok;
    (destruct fuel as [|fuel]; [lia|]).
  - assert (Hsend : Celery.send_booking_confirmation_email mail r data user_email
      = ([Celery.Info ("Booking confirmation email sent successfully to "
                         +:+ user_email)],
         Celery.Returned ("Email sent to " +:+ user_email))).
    { unfold Celery.send_booking_confirmation_email.
      rewrite Nat.add_0_r in Hok. now rewrite Hok. }
    cbn [Celery.worker]. rewrite Hsend. repeat split; reflexivity.
  - assert (Hsend : Celery.send_booking_confirmation_email mail r data user_email
      = ([Celery.Error "Failed to send booking confirmation email"],
         Celery.RetryRaised 300)).
    { unfold Celery.send_booking_confirmation_email.
      rewrite Hfail by lia. unfold Celery.retry, Celery.max_retries.
      now rewrite (proj2 (Nat.ltb_ge 3 (r + 1))) by lia. }
    destruct (IH fuel mail (S r) data user_email) as (Hex & Hcd & Hst & Hlog).
    + lia.
    + lia.
    + intros n message Hn. apply Hfail. lia.
    + intros message. replace (S r + k)%nat with (r + S k)%nat by lia. apply Hok.
    + cbn [Celery.worker]. rewrite Hsend. cbn.
      rewrite Hex, Hcd, Hst, Hlog. repeat split; reflexivity.
Qed.

(** X23: when the first [k <= 3] executions fail and the next one gets
    the message out, the worker runs the task [k + 1] times, re-sends it
    [k] times with a countdown of 300 seconds each, logs [k] errors and
    one success line, and the job ends in state SUCCESS. *)
Theorem confirmation_email_first_delivery (k fuel : nat) (mail : Celery.Mail)
    (data : dict) (user_email : string) :
  (k <= 3)%nat -> (k < fuel)%nat ->
  (∀ n message, (n < k)%nat -> Celery.delivered mail n message = false) ->
  (∀ message, Celery.delivered mail k message = true) ->
  let run := Celery.worker fuel mail 0 data user_email in
  Celery.executions run = S k ∧
  Celery.countdowns run = replicate k 300 ∧
  Celery.state run = Celery.SUCCESS ∧
  Celery.log run
    = replicate k (Celery.Error "Failed to send booking confirmation email")
      ++ [Celery.Info ("Booking confirmation email sent successfully to "
                         +:+ user_email)].
Proof.
  intros Hk Hfuel Hfail Hok.
  apply (worker_first_delivery_from k fuel mail 0 data user_email);
    [lia | lia | intros n message Hn; apply Hfail; lia | exact Hok].
Qed.

Lemma confirmation_email_first_delivery_witness :
  Celery.countdowns
    (Celery.worker 10 mail_back_after_two 0
       (created_booking_data 5 (Sample.stay "pending")) "alice@example.com")
    = [300; 300] ∧
  Celery.state
    (Celery.worker 10 mail_back_after_two 0
       (created_booking_data 5 (Sample.stay "pending")) "alice@example.com")
    = Celery.SUCCESS.
Proof.
  destruct (confirmation_email_first_delivery 2 10 mail_back_after_two
              (created_booking_data 5 (Sample.stay "pending")) "alice@example.com")
    as (_ & Hc & Hs & _).
  - lia.
  - lia.
  - intros n message Hn. do 2 (destruct n as [|n]; [reflexivity|]). lia.
  - reflexivity.
  - split; [exact Hc | exact Hs].
Defined.

(** ** From creation to payment *)

(** What [perform_create] leaves when the request brings no confirmation
    number. *)
Lemma perform_create_generated_run (w : World) (user : User)
    (data : CreateBookingData) :
  truthy_str (cb_confirmation_number data) = false ->
  let bid := fresh (dom (bookings w)) in
  let B := created_booking data user (now_at (oracle w) (ticks w))
             (uuid_at (oracle w) (uuids_drawn w)) in
  ∃ w',
    perform_create user data w = (w', inl tt) ∧
    (oracle w', ticks w', gateway_calls w')
      = (oracle w, S (ticks w), gateway_calls w) ∧
    bookings w' = <[bid := B]> (bookings w) ∧
    queue w' = queue w ++ [{| task := CONFIRMATION;
                              booking_data := created_booking_data bid B;
                              user_email := email user |}] ∧
    (0 < cb_total_price data ->
       payments w' =
         <[fresh (dom (payments w)) :=
             initial_payment bid (cb_total_price data)
               (uuid_str (uuid_at (oracle w) (S (uuids_drawn w))))]> (payments w)) ∧
    (¬ 0 < cb_total_price data -> payments w' = payments w).
Proof.
  intros Hnum bid B.
  destruct (0 <? cb_total_price data) eqn:Hprice;
    [pose proof (proj1 (Z.ltb_lt _ _) Hprice)
    |pose proof (proj1 (Z.ltb_ge _ _) Hprice)].
  all: eexists.
  all: split; [run_create; rewrite ?Hnum; run_create; rewrite ?Hprice;
               run_create; reflexivity|].
  all: cbn -[lookup insert fresh dom].
  all: rewrite ?insert_insert_eq.
  all: repeat split; try reflexivity; intros; try reflexivity; lia.
Qed.

(** X24: from creation to payment.  A booking created with a positive
    price, whose payment reference no earlier payment carries, is
    confirmed by the successful verification of that reference; the
    user has then been sent two confirmation emails, one when the
    booking was created and one when the payment was verified. *)
Theorem create_then_verify (w : World) (user : User) (data : CreateBookingData) :
  let bid := fresh (dom (bookings w)) in
  let reference := uuid_str (uuid_at (oracle w) (S (uuids_drawn w))) in
  truthy_str (cb_confirmation_number data) = false ->
  0 < cb_total_price data ->
  no_payment w reference ->
  data_status (chapa_verify (oracle w) reference) = Some "success"%string ->
  let w1 := (perform_create user data w).1 in
  let w2 := (verify_payment reference w1).1 in
  ∃ B job1 job2,
    bookings w2 !! bid = Some B ∧
    guest B = user ∧
    status B = "confirmed"%string ∧
    payment_status B = Some "completed"%string ∧
    queue w2 = queue w ++ [job1; job2] ∧
    task job1 = CONFIRMATION ∧ task job2 = CONFIRMATION ∧
    user_email job1 = email user ∧ user_email job2 = email user.
Proof.
  intros bid reference Hnum Hprice Hnew Hgw w1 w2.
  destruct (perform_create_generated_run w user data Hnum)
    as (w1' & Hrun & [= Ho Ht Hg] & Hb & Hq & Hpay & _).
  specialize (Hpay Hprice).
  assert (Hw1 : w1 = w1') by (unfold w1; now rewrite Hrun).
  clearbody w1. subst w1'. fold bid in Hb, Hq, Hpay. fold reference in Hpay.
  set (pid := fresh (dom (payments w))) in *.
  set (p := initial_payment bid (cb_total_price data) reference) in *.
  set (B0 := created_booking data user (now_at (oracle w) (ticks w))
               (uuid_at (oracle w) (uuids_drawn w))) in *.
  assert (Hsole : sole_payment w1 pid p).
  { split; [rewrite Hpay; apply lookup_insert_eq|].
    intros pid' q Hq' Href. destruct (decide (pid' = pid)) as [|Hne]; [assumption|].
    rewrite Hpay, lookup_insert_ne in Hq' by congruence.
    exfalso. exact (Hnew pid' q Hq' Href). }
  destruct (verify_payment_success_run w1 pid bid p B0)
    as (w2' & r2 & job2 & Hrun2 & _ & _ & _ & Hb2 & Hq2 & Hk2 & Hu2 & _).
  - exact Hsole.
  - reflexivity.
  - rewrite Hb. apply lookup_insert_eq.
  - rewrite Ho. exact Hgw.
  - change (p_reference p) with reference in Hrun2.
    assert (Hw2 : w2 = w2') by (unfold w2; now rewrite Hrun2).
    clearbody w2. subst w2'.
    eexists _, _, job2. split; [rewrite Hb2; apply lookup_insert_eq|].
    split; [reflexivity|]. split; [reflexivity|]. split; [reflexivity|].
    split; [rewrite Hq2, Hq, <- app_assoc; reflexivity|].
    repeat split; try reflexivity; assumption.
Qed.

(** X25: generated confirmation numbers are not checked against the
    table.  When the next uuid yields the number that an existing booking
    already carries, [perform_create] assigns it all the same: the old
    row is kept and the new row has the same confirmation number. *)
Theorem perform_create_repeats_number (w : World) (user : User)
    (data : CreateBookingData) (pk : Z) (b : Booking) :
  truthy_str (cb_confirmation_number data) = false ->
  bookings w !! pk = Some b ->
  confirmation_number b
    = Some (upper (slice 0 8 (uuid_str (uuid_at (oracle w) (uuids_drawn w))))) ->
  let w' := (perform_create user data w).1 in
  ∃ pk' b',
    pk' ≠ pk ∧
    bookings w' !! pk = Some b ∧
    bookings w' !! pk' = Some b' ∧
    confirmation_number b' = confirmation_number b.
Proof.
  intros Hnum Hb Hsame w'.
  destruct (perform_create_generated_run w user data Hnum)
    as (w1 & Hrun & _ & Hbk & _).
  assert (Hw : w' = w1) by (unfold w'; now rewrite Hrun).
  clearbody w'. subst w1.
  assert (Hne : fresh (dom (bookings w)) ≠ pk).
  { intros <-. rewrite fresh_key_unused in Hb. discriminate. }
  eexists _, _. split; [exact Hne|]. rewrite Hbk. split; [|split].
  - now rewrite lookup_insert_ne.
  - apply lookup_insert_eq.
  - now rewrite Hsame.
Qed.

Lemma create_then_verify_witness :
  let w := Sample.world "cancelled" "success" in
  let reference := uuid_str (uuid_at (oracle w) (S (uuids_drawn w))) in
  let w1 := (perform_create Sample.alice (Sample.request 75000) w).1 in
  ∃ B, bookings (verify_payment reference w1).1 !! fresh (dom (bookings w)) = Some B ∧
       status B = "confirmed"%string.
Proof.
  intros w reference w1.
  destruct (create_then_verify w Sample.alice (Sample.request 75000))
    as (B & job1 & job2 & Hb & _ & Hst & _).
  - reflexivity.
  - reflexivity.
  - intros pid p Hp. cbn in Hp.
    apply lookup_singleton_Some in Hp as [_ <-]. vm_compute. discriminate.
  - reflexivity.
  - exists B. split; [exact Hb | exact Hst].
Defined.

Lemma perform_create_repeats_number_witness :
  let taken := set_confirmation_number (Some "9F8E7D6C"%string) (Sample.stay "pending") in
  let w := set_bookings {[ 5 := taken ]} (Sample.world "pending" "success") in
  ∃ pk' b',
    pk' ≠ 5 ∧
    bookings (perform_create Sample.alice (Sample.request 0) w).1 !! pk' = Some b' ∧
    confirmation_number b' = Some "9F8E7D6C"%string.
Proof.
  intros taken w.
  destruct (perform_create_repeats_number w Sample.alice (Sample.request 0) 5 taken)
    as (pk' & b' & Hne & _ & Hb' & Hnum).
  - reflexivity.
  - reflexivity.
  - vm_compute. reflexivity.
  - exists pk', b'. split; [exact Hne|]. split; [exact Hb' | exact Hnum].
Defined.

(** ** The daily summary *)

Lemma foldr_total_price_nonneg (rows : list (Z * Booking)) :
  Forall (λ kv, 0 ≤ total_price kv.2) rows ->
  0 ≤ foldr (λ kv acc, total_price kv.2 + acc) 0 rows.
Proof. induction 1; cbn; lia. Qed.

(** X26: the figures of the daily digest.  Of the bookings created
    today, the confirmed and the cancelled ones together are never more
    than the total; the digest shows at most 10 bookings, all created
    today; the revenue is 0 when none of today's bookings is confirmed,
    whatever the others cost, and is not negative when no price is.  The
    task changes nothing and returns what the mail system reports. *)
Theorem daily_summary_figures (today : Date) (delivered : DailySummary -> bool)
    (w : World) :
  let c := daily_summary_context today w in
  send_daily_booking_summary today delivered w = (w, inl (delivered c)) ∧
  (ds_confirmed_count c + ds_cancelled_count c <= ds_total_bookings c)%nat ∧
  length (ds_bookings c) = min 10 (ds_total_bookings c) ∧
  (∀ pk b, (pk, b) ∈ ds_bookings c ->
           bookings w !! pk = Some b ∧ date_of (created_at b) = today) ∧
  (ds_confirmed_count c = 0%nat -> ds_total_revenue c = 0) ∧
  ((∀ pk b, bookings w !! pk = Some b -> 0 ≤ total_price b) ->
   0 ≤ ds_total_revenue c).
Proof.
  intros c. split; [reflexivity|].
  set (todays := filter (created_on today) (bookings w)).
  split; [|split; [|split; [|split]]].
  - cbn -[filter size]. fold todays.
    rewrite (map_size_filter_split (has_status "confirmed") todays).
    apply Nat.add_le_mono_l, map_subseteq_size, map_filter_subseteq_ext.
    intros pk b _. unfold has_status. cbn. congruence.
  - cbn -[filter size]. now rewrite length_take, length_map_to_list.
  - intros pk b Hin. cbn -[filter] in Hin.
    apply subseteq_take in Hin.
    now apply elem_of_map_to_list, map_lookup_filter_Some in Hin.
  - cbn -[filter size]. fold todays. intros Hnone.
    apply map_size_empty_inv in Hnone. rewrite Hnone.
    unfold Sum_total_price. now rewrite map_to_list_empty.
  - intros Hprices. cbn -[filter]. fold todays. unfold Sum_total_price.
    destruct (map_to_list (filter (has_status "confirmed") todays))
      as [|first rest] eqn:Hrows; [reflexivity|].
    cbn [or_0]. apply foldr_total_price_nonneg.
    rewrite <- Hrows. apply Forall_forall. intros [pk b] Hin.
    apply elem_of_map_to_list, map_lookup_filter_Some in Hin as [Hin _].
    apply map_lookup_filter_Some in Hin as [Hin _].
    exact (Hprices pk b Hin).
Qed.

(** The digest of the day on which the three bookings of the cleanup
    sample were created: one booking confirmed, two cancelled. *)
Example daily_summary_example :
  let c := daily_summary_context (date_of (Sample.t0 - timedelta_days 60))
             cleanup_world in
  (ds_total_bookings c, ds_confirmed_count c, ds_cancelled_count c,
   ds_total_revenue c) = (3%nat, 1%nat, 2%nat, 75000).
Proof. vm_compute. reflexivity. Qed.

Lemma confirmation_email_bounded_witness :
  (Celery.executions
     (Celery.worker 10 mail_back_after_two 0
        (created_booking_data 5 (Sample.stay "pending")) "alice@example.com")
   <= 4)%nat.
Proof.
  apply (confirmation_email_bounded 10 mail_back_after_two
           (created_booking_data 5 (Sample.stay "pending")) "alice@example.com").
Defined.

Lemma daily_summary_figures_witness :
  0 ≤ ds_total_revenue
        (daily_summary_context (date_of (Sample.t0 - timedelta_days 60))
           cleanup_world).
Proof.
  apply (daily_summary_figures (date_of (Sample.t0 - timedelta_days 60))
           (λ _, true) cleanup_world).
  intros pk b Hb. cbn in Hb.
  destruct (decide (pk = 1)) as [->|];
    [rewrite lookup_insert_eq in Hb; injection Hb as <-; discriminate|].
  rewrite lookup_insert_ne in Hb by congruence.
  destruct (decide (pk = 2)) as [->|];
    [rewrite lookup_insert_eq in Hb; injection Hb as <-; discriminate|].
  rewrite lookup_insert_ne in Hb by congruence.
  apply lookup_singleton_Some in Hb as [_ <-]. discriminate.
Defined.
